(** * The Twitch client of twitchAPI/twitch.py, embedded in Rocq

    The class [Twitch] keeps two credentials (application and user), builds
    the request headers from them, and wraps the Helix endpoints.  Methods
    that only read [self] are functions of the object into an error type;
    methods that write to [self] or talk to the network run in a state and
    error monad over a [World]: the object together with the network. *)

From stdpp Require Import base strings list pretty.
From Stdlib Require Import ZArith Lia.

Open Scope string_scope.
Open Scope Z_scope.

(** ** Enumerations of twitchAPI/types.py *)

(** Modelled from the spec: types.py is not among the sources.  A ScopeId is
    an opaque identifier from a fixed enumeration; a member of a Python
    [Enum] is identified by its name, which is all twitch.py reads of it
    ([s.name]) besides comparing members. *)
Inductive AuthScope : Type := Scope (name : string).

Definition name (s : AuthScope) : string := let 'Scope n := s in n.

#[global] Instance AuthScope_eq_dec : EqDecision AuthScope.
Proof. solve_decision. Defined.

Definition ANALYTICS_READ_EXTENSION : AuthScope := Scope "ANALYTICS_READ_EXTENSION".
Definition ANALYTICS_READ_GAMES : AuthScope := Scope "ANALYTICS_READ_GAMES".

(** Modelled from the spec: the report-type constants are an enumeration
    outside the core; twitch.py reads the [value] of a member. *)
Inductive AnalyticsReportType : Type := ReportType (name value : string).

Definition value (r : AnalyticsReportType) : string := let 'ReportType _ v := r in v.

(** Modelled from the spec: the AuthMode of the data model, one of None, App,
    User and Either.  twitch.py names [AuthType.APP], [AuthType.USER] and
    [AuthType.NONE]. *)
Inductive AuthType : Type := NONE | USER | APP | EITHER.

#[global] Instance AuthType_eq_dec : EqDecision AuthType.
Proof. solve_decision. Defined.

(** An enumeration class as [fields_to_enum] needs it: the class name and its
    members, (name, value) in declaration order. *)
Record EnumType : Type := {
  enum_cls : string;
  enum_members : list (string * string)
}.

(** The exceptions the module raises or lets through. *)
Inductive exn : Type :=
| UnauthorizedException (msg : string)
| MissingScopeException (msg : string)
| Exception (msg : string)
| TypeError
| ValueError
| KeyError
| ConnectionError.

Definition Result (A : Type) : Type := exn + A.

Notation "'try!' x ':=' m 'in' k" :=
  (match m with inl e => inl e | inr x => k end)
  (at level 10, x name, m at level 100, k at level 200, only parsing).

(** [for x in l: body] where the body may raise. *)
Fixpoint for_in {A : Type} (l : list A) (body : A → Result unit) : Result unit :=
  match l with
  | [] => inr tt
  | x :: rest => try! _u := body x in for_in rest body
  end.

Section Values.

(** [datetime.datetime] is kept abstract. *)
Context {datetime : Type}.

(** Keys of a Python dict: twitch.py uses string keys and, in one place, an
    integer. *)
Inductive pykey : Type := KStr (s : string) | KInt (n : Z).

#[global] Instance pykey_eq_dec : EqDecision pykey.
Proof. solve_decision. Defined.

(** Python values: what JSON decodes to, plus the datetimes and enumeration
    members that arguments and normalised responses hold. *)
#[warnings="-register-all"]
Inductive pyval : Type :=
| VNone
| VBool (b : bool)
| VInt (n : Z)
| VStr (s : string)
| VList (l : list pyval)
| VDict (d : list (pykey * pyval))
| VDatetime (t : datetime)
| VEnum (cls member : string).

(** A dict keeps insertion order; assigning to a key that is present
    replaces its value in place. *)
Definition dict : Type := list (pykey * pyval).

Fixpoint dict_get (k : pykey) (d : dict) : option pyval :=
  match d with
  | [] => None
  | (k', v) :: rest => if decide (k = k') then Some v else dict_get k rest
  end.

Fixpoint dict_set (k : pykey) (v : pyval) (d : dict) : dict :=
  match d with
  | [] => [(k, v)]
  | (k', v') :: rest =>
      if decide (k = k') then (k, v) :: rest else (k', v') :: dict_set k v rest
  end.

(** A dict display [{k1: v1, ..., kn: vn}]: the items are stored left to right. *)
Definition dict_of (items : list (pykey * pyval)) : dict :=
  foldl (λ d kv, dict_set kv.1 kv.2 d) [] items.

(** [d[k]] on an arbitrary value. *)
Definition subscript (v : pyval) (k : pykey) : Result pyval :=
  match v with
  | VDict d => match dict_get k d with Some x => inr x | None => inl KeyError end
  | _ => inl TypeError
  end.

(** [l.count(x)] called with the argument list [args]: the method takes
    exactly one argument. *)
Definition list_count {A : Type} `{EqDecision A} (l : list A) (args : list A) : Result Z :=
  match args with
  | [x] => inr (Z.of_nat (length (filter (λ y, y = x) l)))
  | _ => inl TypeError
  end.

(** ** The client object *)

Record Twitch : Type := {
  app_id : string;
  app_secret : string;
  __app_auth_token : pyval;
  __app_auth_scope : list AuthScope;
  __has_app_auth : bool;
  __user_auth_token : pyval;
  __user_auth_scope : list AuthScope;
  __has_user_auth : bool
}.

(** [Twitch(app_id, app_secret)]: the class attributes give the defaults. *)
Definition __init__ (id secret : string) : Twitch :=
  {| app_id := id; app_secret := secret;
     __app_auth_token := VNone; __app_auth_scope := []; __has_app_auth := false;
     __user_auth_token := VNone; __user_auth_scope := []; __has_user_auth := false |}.

Definition set_app_auth_token (v : pyval) (o : Twitch) : Twitch :=
  {| app_id := app_id o; app_secret := app_secret o;
     __app_auth_token := v; __app_auth_scope := __app_auth_scope o;
     __has_app_auth := __has_app_auth o;
     __user_auth_token := __user_auth_token o;
     __user_auth_scope := __user_auth_scope o;
     __has_user_auth := __has_user_auth o |}.

Definition set_app_auth_scope (l : list AuthScope) (o : Twitch) : Twitch :=
  {| app_id := app_id o; app_secret := app_secret o;
     __app_auth_token := __app_auth_token o; __app_auth_scope := l;
     __has_app_auth := __has_app_auth o;
     __user_auth_token := __user_auth_token o;
     __user_auth_scope := __user_auth_scope o;
     __has_user_auth := __has_user_auth o |}.

Definition set_has_app_auth (b : bool) (o : Twitch) : Twitch :=
  {| app_id := app_id o; app_secret := app_secret o;
     __app_auth_token := __app_auth_token o;
     __app_auth_scope := __app_auth_scope o; __has_app_auth := b;
     __user_auth_token := __user_auth_token o;
     __user_auth_scope := __user_auth_scope o;
     __has_user_auth := __has_user_auth o |}.

Definition set_user_auth_token (v : pyval) (o : Twitch) : Twitch :=
  {| app_id := app_id o; app_secret := app_secret o;
     __app_auth_token := __app_auth_token o;
     __app_auth_scope := __app_auth_scope o;
     __has_app_auth := __has_app_auth o;
     __user_auth_token := v; __user_auth_scope := __user_auth_scope o;
     __has_user_auth := __has_user_auth o |}.

Definition set_user_auth_scope (l : list AuthScope) (o : Twitch) : Twitch :=
  {| app_id := app_id o; app_secret := app_secret o;
     __app_auth_token := __app_auth_token o;
     __app_auth_scope := __app_auth_scope o;
     __has_app_auth := __has_app_auth o;
     __user_auth_token := __user_auth_token o; __user_auth_scope := l;
     __has_user_auth := __has_user_auth o |}.

Definition set_has_user_auth (b : bool) (o : Twitch) : Twitch :=
  {| app_id := app_id o; app_secret := app_secret o;
     __app_auth_token := __app_auth_token o;
     __app_auth_scope := __app_auth_scope o;
     __has_app_auth := __has_app_auth o;
     __user_auth_token := __user_auth_token o;
     __user_auth_scope := __user_auth_scope o; __has_user_auth := b |}.

(** ** The collaborators: helper.py, datetime and the built-in [str] *)

Class Helpers : Type := {
  TWITCH_API_BASE_URL : string;
  TWITCH_AUTH_BASE_URL : string;
  (** [build_url(url, params, remove_none=..., split_lists=...)]; [None] for a
      keyword the call leaves to its default. *)
  build_url : string → dict → option bool → option bool → string;
  build_scope : list AuthScope → string;
  make_fields_datetime : pyval → list string → Result pyval;
  CodeStatus : EnumType;
  CodeStatus_UNKNOWN_VALUE : pyval;
  (** [a < b] on datetimes, which raises for a naive and an aware one. *)
  datetime_lt : datetime → datetime → Result bool;
  isoformat : datetime → string;
  (** [str(v)] for the values whose text is not spelled out in [fstr]. *)
  py_str : pyval → string
}.

Context {helpers : Helpers}.

(** [f'{v}']. *)
Definition fstr (v : pyval) : string :=
  match v with
  | VStr s => s
  | VNone => "None"
  | VInt n => pretty n
  | VBool true => "True"
  | VBool false => "False"
  | _ => py_str v
  end.

(** ** __generate_header *)

Definition __generate_header (self : Twitch) (auth_type : AuthType)
    (required_scope : list AuthScope) : Result dict :=
  let header := dict_of [(KStr "Client-ID", VStr (app_id self))] in
  match auth_type with
  | APP =>
      if negb (__has_app_auth self)
      then inl (UnauthorizedException "Require app authentication!")
      else
        try! _u := for_in required_scope (λ s,
                     if bool_decide (s ∉ __app_auth_scope self)
                     then inl (MissingScopeException ("Require app auth scope " +:+ name s))
                     else inr tt) in
        inr (dict_set (KStr "Authorization")
               (VStr ("Bearer " +:+ fstr (__app_auth_token self))) header)
  | USER =>
      if negb (__has_user_auth self)
      then inl (UnauthorizedException "require user authentication!")
      else
        try! _u := for_in required_scope (λ s,
                     if bool_decide (s ∉ __user_auth_scope self)
                     then inl (MissingScopeException ("Require user auth scope " +:+ name s))
                     else inr tt) in
        inr (dict_set (KStr "Authorization")
               (VStr ("Bearer " +:+ fstr (__user_auth_token self))) header)
  | _ =>
      if __has_user_auth self || __has_app_auth self
      then
        (* if no required, set one anyway to get better rate limits if possible *)
        inr (dict_set (KStr "Authorization")
               (VStr ("Bearer " +:+ fstr (if __has_user_auth self
                                          then __user_auth_token self
                                          else __app_auth_token self))) header)
      else inr header
  end.

(** ** The network and the monad of the methods *)

Inductive Method : Type := GET | POST.

(** A call of [requests.get] or [requests.post]: [headers] and [json_data]
    are [None] when the keyword is not passed. *)
Record Request : Type := {
  method : Method;
  url : string;
  headers : option dict;
  json_data : option pyval
}.

(** What the code reads of a [requests.Response]; [json] is [None] when the
    body does not decode. *)
Record Response : Type := {
  status_code : Z;
  text : string;
  json : option pyval
}.

(** The client object, the requests issued so far (oldest first) and the
    replies the network will give, in order. *)
Record World : Type := {
  client : Twitch;
  sent : list Request;
  inbox : list Response
}.

Definition M (A : Type) : Type := World → Result A * World.

Definition ret {A : Type} (a : A) : M A := λ w, (inr a, w).

Definition raise {A : Type} (e : exn) : M A := λ w, (inl e, w).

Definition bind {A B : Type} (m : M A) (k : A → M B) : M B :=
  λ w, match m w with
       | (inl e, w') => (inl e, w')
       | (inr a, w') => k a w'
       end.

Notation "'let!' x ':=' m 'in' k" := (bind m (λ x, k))
  (at level 10, x name, m at level 100, k at level 200, only parsing).

Definition lift {A : Type} (r : Result A) : M A := λ w, (r, w).

(** Reading [self], and assigning to one of its attributes. *)
Definition get_self : M Twitch := λ w, (inr (client w), w).

Definition modify_self (f : Twitch → Twitch) : M unit :=
  λ w, (inr tt, {| client := f (client w); sent := sent w; inbox := inbox w |}).

(** [try: body except ...:]: the handler answers [None] for an exception
    that no clause catches.  What the body wrote before raising stays. *)
Definition try_except {A : Type} (body : M A) (handler : exn → option (M A)) : M A :=
  λ w, match body w with
       | (inl e, w') =>
           match handler e with
           | Some h => h w'
           | None => (inl e, w')
           end
       | ok => ok
       end.

(** The transport: the request goes out, and the next reply comes back; with
    no reply left the transport raises. *)
Definition requests_send (req : Request) : M Response :=
  λ w, match inbox w with
       | [] => (inl ConnectionError,
                {| client := client w; sent := sent w ++ [req]; inbox := [] |})
       | r :: rest => (inr r,
                {| client := client w; sent := sent w ++ [req]; inbox := rest |})
       end.

(** [response.json()]. *)
Definition response_json (r : Response) : Result pyval :=
  match json r with
  | Some v => inr v
  | None => inl ValueError
  end.

(** ** Requests with the Client-ID authorization *)

Definition __api_post_request (url : string) (auth_type : AuthType)
    (required_scope : list AuthScope) (data : option pyval) : M Response :=
  let! self := get_self in
  let! headers := lift (__generate_header self auth_type required_scope) in
  match data with
  | None => requests_send {| method := POST; url := url; headers := Some headers;
                             json_data := None |}
  | Some d => requests_send {| method := POST; url := url; headers := Some headers;
                               json_data := Some d |}
  end.

(** [required_scope] has no default value: [None] stands for a call that
    does not pass it, which Python refuses before the body runs. *)
Definition __api_get_request (url : string) (auth_type : AuthType)
    (required_scope : option (list AuthScope)) : M Response :=
  match required_scope with
  | None => raise TypeError
  | Some required_scope =>
      let! self := get_self in
      let! headers := lift (__generate_header self auth_type required_scope) in
      requests_send {| method := GET; url := url; headers := Some headers;
                       json_data := None |}
  end.

(** ** Authentication *)

Definition __generate_app_token : M unit :=
  let! self := get_self in
  let params := dict_of [(KStr "client_id", VStr (app_id self));
                         (KStr "client_secret", VStr (app_secret self));
                         (KStr "grant_type", VStr "client_credentials");
                         (KStr "scope", VStr (build_scope (__app_auth_scope self)))] in
  let url := build_url (TWITCH_AUTH_BASE_URL +:+ "oauth2/token") params None None in
  let! result := requests_send {| method := POST; url := url; headers := None;
                                  json_data := None |} in
  if bool_decide (status_code result ≠ 200)
  then raise (Exception ("Authentication failed with code " +:+ pretty (status_code result)
                         +:+ " (" +:+ text result +:+ ")"))
  else
    try_except
      (let! data := lift (response_json result) in
       let! token := lift (subscript data (KStr "access_token")) in
       modify_self (set_app_auth_token token))
      (λ e, match e with
            | ValueError =>
                Some (raise (Exception "Authentication response did not have a valid json body"))
            | KeyError =>
                Some (raise (Exception "Authentication response did not contain access_token"))
            | _ => None
            end).

Definition authenticate_app (scope : list AuthScope) : M unit :=
  let! _u := modify_self (set_app_auth_scope scope) in
  let! _u := __generate_app_token in
  modify_self (set_has_app_auth true).

Definition set_user_authentication (token : string) (scope : list AuthScope) : M unit :=
  let! _u := modify_self (set_user_auth_token (VStr token)) in
  let! _u := modify_self (set_user_auth_scope scope) in
  modify_self (set_has_user_auth true).

(** ** Response normalisation *)

(** The member of [_enum] whose value is [s], if there is one. *)
Definition enum_lookup (_enum : EnumType) (s : string) : option pyval :=
  (λ m, VEnum (enum_cls _enum) m.1)
    <$> find (λ m : string * string, bool_decide (m.2 = s)) (enum_members _enum).

(** Modelled from the spec: helper.py is not among the sources.  toEnum
    replaces, for each named field, its string value with the matching
    enumerated constant, or with the fallback if no constant matches; it
    works on arbitrarily nested records and lists of records. *)
Fixpoint fields_to_enum (data : pyval) (fields : list string) (_enum : EnumType)
    (default : pyval) : pyval :=
  match data with
  | VList l => VList (map (λ x, fields_to_enum x fields _enum default) l)
  | VDict d =>
      VDict (map (λ '(k, v),
                    (k, match k, v with
                        | KStr f, VStr s =>
                            if bool_decide (f ∈ fields)
                            then match enum_lookup _enum s with
                                 | Some c => c
                                 | None => default
                                 end
                            else v
                        | _, _ => fields_to_enum v fields _enum default
                        end)) d)
  | _ => data
  end.

(** ** Endpoints *)

Definition of_optional_str (o : option string) : pyval :=
  match o with Some s => VStr s | None => VNone end.

Definition get_webhook_subscriptions (first after : option string) : M pyval :=
  let url := build_url (TWITCH_API_BASE_URL +:+ "webhooks/subscriptions")
               (dict_of [(KStr "first", of_optional_str first);
                         (KStr "after", of_optional_str after)])
               (Some true) None in
  let! response := __api_get_request url APP None in
  lift (response_json response).

(** [x is None] and [x is not None]. *)
Definition is_None {A : Type} (x : option A) : bool :=
  match x with None => true | Some _ => false end.

Definition is_not_None {A : Type} (x : option A) : bool := negb (is_None x).

(** [a < b] and [a > b] on arguments that may be [None]; ordering [None]
    with anything raises. *)
Definition py_lt (a b : option datetime) : Result bool :=
  match a, b with
  | Some x, Some y => datetime_lt x y
  | _, _ => inl TypeError
  end.

Definition py_gt (a b : option datetime) : Result bool := py_lt b a.

(** [d.isoformat() if d is not None else None]. *)
Definition isoformat_or_None (d : option datetime) : pyval :=
  match d with Some t => VStr (isoformat t) | None => VNone end.

Definition value_or_None (r : option AnalyticsReportType) : pyval :=
  match r with Some t => VStr (value t) | None => VNone end.

Definition get_extension_analytics (after extension_id : option string) (first : Z)
    (ended_at started_at : option datetime)
    (report_type : option AnalyticsReportType) : M pyval :=
  let! _u :=
    if is_not_None ended_at || is_not_None started_at
    then
      (* you have to put in both *)
      if is_None ended_at || is_None started_at
      then raise (Exception "you must specify both ended_at and started_at")
      else
        let! later := lift (py_gt started_at ended_at) in
        if later then raise (Exception "started_at must be before ended_at") else ret tt
    else ret tt in
  if (100 <? first) || (first <? 1)
  then raise (Exception "first must be between 1 and 100")
  else
    let url_params := dict_of [(KStr "after", of_optional_str after);
                               (KStr "ended_at", isoformat_or_None ended_at);
                               (KStr "extension_id", of_optional_str extension_id);
                               (KStr "first", VInt first);
                               (KStr "started_at", isoformat_or_None started_at);
                               (KStr "type", value_or_None report_type)] in
    let url := build_url (TWITCH_API_BASE_URL +:+ "analytics/extensions") url_params
                 (Some true) None in
    let! response := __api_get_request url USER (Some [ANALYTICS_READ_EXTENSION]) in
    let! data := lift (response_json response) in
    lift (make_fields_datetime data ["started_at"; "ended_at"]).

Definition get_game_analytics (after : option string) (first : Z)
    (game_id : option string) (ended_at started_at : option datetime)
    (report_type : option AnalyticsReportType) : M pyval :=
  let! _u :=
    if is_not_None ended_at || is_not_None started_at
    then
      if is_None ended_at || is_None started_at
      then raise (Exception "you must specify both ended_at and started_at")
      else
        let! earlier := lift (py_lt ended_at started_at) in
        if earlier then raise (Exception "ended_at must be after started_at") else ret tt
    else ret tt in
  if (100 <? first) || (first <? 1)
  then raise (Exception "first must be between 1 and 100")
  else
    let url_params := dict_of [(KStr "after", of_optional_str after);
                               (KStr "ended_at", isoformat_or_None ended_at);
                               (KStr "first", VInt first);
                               (KStr "game_id", of_optional_str game_id);
                               (KStr "started_at", isoformat_or_None started_at);
                               (KStr "type", value_or_None report_type)] in
    let url := build_url (TWITCH_API_BASE_URL +:+ "analytics/games") url_params
                 (Some true) None in
    let! response := __api_get_request url USER (Some [ANALYTICS_READ_GAMES]) in
    let! data := lift (response_json response) in
    lift (make_fields_datetime data ["ended_at"; "started_at"]).

(** The dict display of [get_extension_transactions]; its last key is the
    variable [first], not a string. *)
Definition get_extension_transactions_url_param (extension_id : string)
    (transaction_id after : option string) (first : Z) : dict :=
  dict_of [(KStr "extension_id", VStr extension_id);
           (KStr "id", of_optional_str transaction_id);
           (KStr "after", of_optional_str after);
           (KInt first, VInt first)].

Definition get_extension_transactions (extension_id : string)
    (transaction_id after : option string) (first : Z) : M pyval :=
  if (100 <? first) || (first <? 1)
  then raise (Exception "first must be between 1 and 100")
  else
    let url_param :=
      get_extension_transactions_url_param extension_id transaction_id after first in
    let url := build_url (TWITCH_API_BASE_URL +:+ "extensions/transactions") url_param
                 (Some true) None in
    let! result := __api_get_request url APP (Some []) in
    let! data := lift (response_json result) in
    lift (make_fields_datetime data ["timestamp"]).

(** [code.count() > 20 or code.count() < 1]: [count] is called without
    an argument, the second time only if the first comparison is false. *)
Definition code_count_out_of_range (code : list string) : Result bool :=
  try! n := list_count code [] in
  if 20 <? n then inr true
  else try! m := list_count code [] in inr (m <? 1).

Definition get_code_status (code : list string) (user_id : Z) : M pyval :=
  let! bad := lift (code_count_out_of_range code) in
  if bad
  then raise (Exception "only between 1 and 20 codes are allowed")
  else
    let param := dict_of [(KStr "code", VList (VStr <$> code));
                          (KStr "user_id", VInt user_id)] in
    let url := build_url (TWITCH_API_BASE_URL +:+ "entitlements/codes") param
                 None (Some true) in
    let! result := __api_get_request url APP (Some []) in
    let! data := lift (response_json result) in
    ret (fields_to_enum data ["status"] CodeStatus CodeStatus_UNKNOWN_VALUE).

Definition redeem_code (code : list string) (user_id : Z) : M pyval :=
  let! bad := lift (code_count_out_of_range code) in
  if bad
  then raise (Exception "only between 1 and 20 codes are allowed")
  else
    let param := dict_of [(KStr "code", VList (VStr <$> code));
                          (KStr "user_id", VInt user_id)] in
    let url := build_url (TWITCH_API_BASE_URL +:+ "entitlements/code") param
                 None (Some true) in
    let! result := __api_post_request url APP [] None in
    let! data := lift (response_json result) in
    ret (fields_to_enum data ["status"] CodeStatus CodeStatus_UNKNOWN_VALUE).

(** ** The credentials, as the data model reads them off the object *)

Record Credential : Type := {
  token : pyval;
  scopes : list AuthScope;
  present : bool
}.

Definition app_credential (self : Twitch) : Credential :=
  {| token := __app_auth_token self; scopes := __app_auth_scope self;
     present := __has_app_auth self |}.

Definition user_credential (self : Twitch) : Credential :=
  {| token := __user_auth_token self; scopes := __user_auth_scope self;
     present := __has_user_auth self |}.

(** The text [__generate_header] stores under Authorization for a credential. *)
Definition bearer (c : Credential) : pyval := VStr ("Bearer " +:+ fstr (token c)).

(** The credential whose token [__generate_header] formats into the
    Authorization header, branch by branch. *)
Definition header_source (self : Twitch) (auth_type : AuthType) : option Credential :=
  match auth_type with
  | APP => Some (app_credential self)
  | USER => Some (user_credential self)
  | _ =>
      if __has_user_auth self then Some (user_credential self)
      else if __has_app_auth self then Some (app_credential self)
      else None
  end.

(** What the spec asks of the modes App and User, for a credential [c] and
    the two messages of its branch: [res] is the outcome of building the
    headers for the required scopes [R] of a client [id]. *)
Definition mode_contract (c : Credential) (unauthenticated missing id : string)
    (R : list AuthScope) (res : Result dict) : Prop :=
  (present c = false → res = inl (UnauthorizedException unauthenticated))
  ∧ (present c = true →
     ∀ pre s post, R = (pre ++ s :: post)%list → (∀ x, x ∈ pre → x ∈ scopes c) →
       s ∉ scopes c →
       res = inl (MissingScopeException (missing +:+ name s)))
  ∧ (present c = true → ¬ (∀ x, x ∈ R → x ∈ scopes c) →
     ∃ pre s post, R = (pre ++ s :: post)%list ∧ (∀ x, x ∈ pre → x ∈ scopes c)
       ∧ (s ∉ scopes c)
       ∧ res = inl (MissingScopeException (missing +:+ name s)))
  ∧ (present c = true → (∀ x, x ∈ R → x ∈ scopes c) →
     ∃ h, res = inr h
          ∧ dict_get (KStr "Client-ID") h = Some (VStr id)
          ∧ dict_get (KStr "Authorization") h = Some (bearer c)).

(** The scope invariant of the header builder at one call: if the call
    succeeds, the credential behind its Authorization header was granted
    every required scope. *)
Definition scope_invariant (self : Twitch) (auth_type : AuthType)
    (R : list AuthScope) : Prop :=
  ∀ h c, __generate_header self auth_type R = inr h →
    header_source self auth_type = Some c →
    ∀ s, s ∈ R → s ∈ scopes c.

(** Mode None as the spec words it: the call succeeds and the headers have
    no Authorization entry. *)
Definition none_omits_authorization (self : Twitch) (R : list AuthScope) : Prop :=
  ∃ h, __generate_header self NONE R = inr h
       ∧ dict_get (KStr "Authorization") h = None.

(** The request [__generate_app_token] posts for a client. *)
Definition token_request (self : Twitch) : Request :=
  {| method := POST;
     url := build_url (TWITCH_AUTH_BASE_URL +:+ "oauth2/token")
              (dict_of [(KStr "client_id", VStr (app_id self));
                        (KStr "client_secret", VStr (app_secret self));
                        (KStr "grant_type", VStr "client_credentials");
                        (KStr "scope", VStr (build_scope (__app_auth_scope self)))])
              None None;
     headers := None; json_data := None |}.

(** A refused token request as the spec words it: the call fails and the
    app credential is not marked present afterwards. *)
Definition refusal_leaves_absent (w : World) (scope : list AuthScope) : Prop :=
  ∀ r rest, inbox w = r :: rest → status_code r ≠ 200 →
    ∃ e w', authenticate_app scope w = (inl e, w')
            ∧ __has_app_auth (client w') = false.

(** ** Positions in a decoded body *)

Inductive step : Type := Field (f : string) | Index (i : nat).

(** The value reached from [v] by following record fields and list indices. *)
Fixpoint at_path (p : list step) (v : pyval) : option pyval :=
  match p with
  | [] => Some v
  | Field f :: q =>
      match v with
      | VDict d =>
          match dict_get (KStr f) d with
          | Some x => at_path q x
          | None => None
          end
      | _ => None
      end
  | Index i :: q =>
      match v with
      | VList l =>
          match l !! i with
          | Some x => at_path q x
          | None => None
          end
      | _ => None
      end
  end.

End Values.

Arguments pyval : clear implicits.
Arguments dict : clear implicits.
Arguments Twitch : clear implicits.
Arguments Helpers : clear implicits.
Arguments Request : clear implicits.
Arguments Response : clear implicits.
Arguments World : clear implicits.
Arguments Credential : clear implicits.

(** ** A concrete set of collaborators, for running the methods *)

Module Sample.

(** Datetimes as seconds since the epoch. *)
Definition render_key (k : pykey) : string :=
  match k with KStr s => s | KInt n => pretty n end.

Definition render_value (v : pyval Z) : string :=
  match v with
  | VStr s => s
  | VInt n => pretty n
  | _ => ""
  end.

(** A plain query-string builder: [key=value] pairs after the base. *)
Definition query_url (base : string) (params : dict Z)
    (remove_none split_lists : option bool) : string :=
  base +:+ "?" +:+
  String.concat "&"
    (omap (λ kv : pykey * pyval Z,
             match kv.2, remove_none with
             | VNone, Some true => None
             | _, _ => Some (render_key kv.1 +:+ "=" +:+ render_value kv.2)
             end) params).

#[global] Instance helpers : Helpers Z := {|
  TWITCH_API_BASE_URL := "https://api.twitch.tv/helix/";
  TWITCH_AUTH_BASE_URL := "https://id.twitch.tv/";
  build_url := query_url;
  build_scope := λ l, foldr (λ s acc, name s +:+ " " +:+ acc) "" l;
  make_fields_datetime := λ v _, inr v;
  CodeStatus := {| enum_cls := "CodeStatus";
                   enum_members := [("SUCCESSFULLY_REDEEMED", "SUCCESSFULLY_REDEEMED");
                                    ("ALREADY_CLAIMED", "ALREADY_CLAIMED");
                                    ("EXPIRED", "EXPIRED")] |};
  CodeStatus_UNKNOWN_VALUE := VEnum "CodeStatus" "UNKNOWN_VALUE";
  datetime_lt := λ a b, inr (a <? b);
  isoformat := pretty;
  py_str := λ _, ""
|}.

Definition BITS_READ : AuthScope := Scope "BITS_READ".
Definition CLIPS_EDIT : AuthScope := Scope "CLIPS_EDIT".

(** A reply of the token endpoint that carries a token, and a refusal. *)
Definition token_reply (t : string) : Response Z :=
  {| status_code := 200; text := "";
     json := Some (VDict [(KStr "access_token", VStr t)]) |}.

Definition refusal : Response Z :=
  {| status_code := 403; text := "invalid client secret"; json := None |}.

Definition ok_reply (body : pyval Z) : Response Z :=
  {| status_code := 200; text := ""; json := Some body |}.

(** A new client, before any request, facing the given replies. *)
Definition fresh (replies : list (Response Z)) : World Z :=
  {| client := __init__ "my-app" "my-secret"; sent := []; inbox := replies |}.

(** The client after [authenticate_app [BITS_READ]] was answered with the
    token ["tok1"]. *)
Definition app_authenticated : Twitch Z :=
  {| app_id := "my-app"; app_secret := "my-secret";
     __app_auth_token := VStr "tok1"; __app_auth_scope := [BITS_READ];
     __has_app_auth := true;
     __user_auth_token := VNone; __user_auth_scope := []; __has_user_auth := false |}.

(** The client after [set_user_authentication "utok" []]. *)
Definition user_authenticated : Twitch Z :=
  {| app_id := "my-app"; app_secret := "my-secret";
     __app_auth_token := VNone; __app_auth_scope := []; __has_app_auth := false;
     __user_auth_token := VStr "utok"; __user_auth_scope := [];
     __has_user_auth := true |}.

End Sample.

(** ** The other endpoints of the class *)

(** Modelled from the spec: the period constants are an enumeration outside
    the core; twitch.py reads the [value] of a member. *)
Inductive TimePeriod : Type := Period (name value : string).

Definition period_value (t : TimePeriod) : string := let 'Period _ v := t in v.

Definition BITS_READ : AuthScope := Scope "BITS_READ".
Definition CLIPS_EDIT : AuthScope := Scope "CLIPS_EDIT".
Definition MODERATION_READ : AuthScope := Scope "MODERATION_READ".

Section MoreEndpoints.
Context {datetime : Type} {helpers : Helpers datetime}.

(** [ModerationEventType] and its member [UNKNOWN], of types.py. *)
Variable ModerationEventType : EnumType.
Variable ModerationEventType_UNKNOWN : pyval datetime.

Notation "'let!' x ':=' m 'in' k" := (bind m (λ x, k))
  (at level 10, x name, m at level 100, k at level 200, only parsing).

Definition of_optional_list (o : option (list string)) : pyval datetime :=
  match o with Some l => VList (VStr <$> l) | None => VNone end.

(** [len(l) if l is not None else 0]. *)
Definition len_or_0 (o : option (list string)) : Z :=
  match o with Some l => Z.of_nat (length l) | None => 0 end.

(** [str(b).lower()]. *)
Definition str_lower_of_bool (b : bool) : string := if b then "true" else "false".

Definition get_users (user_ids logins : option (list string)) : M (pyval datetime) :=
  if is_None user_ids && is_None logins
  then raise (Exception "please either specify user_ids or logins")
  else
    let url_params := dict_of [(KStr "id", of_optional_list user_ids);
                               (KStr "login", of_optional_list logins)] in
    let url := build_url (TWITCH_API_BASE_URL +:+ "users") url_params
                 (Some true) (Some true) in
    let! response := __api_get_request url NONE (Some []) in
    let! data := lift (response_json response) in
    ret data.

Definition get_bits_leaderboard (count : Z) (period : TimePeriod)
    (started_at : option datetime) (user_id : option string) : M (pyval datetime) :=
  if (100 <? count) || (count <? 1)
  then raise (Exception "count must be between 1 and 100")
  else
    let url_params := dict_of [(KStr "count", VInt count);
                               (KStr "period", VStr (period_value period));
                               (KStr "started_at", isoformat_or_None started_at);
                               (KStr "user_id", of_optional_str user_id)] in
    let url := build_url (TWITCH_API_BASE_URL +:+ "bits/leaderboard") url_params
                 (Some true) None in
    let! response := __api_get_request url USER (Some [BITS_READ]) in
    let! data := lift (response_json response) in
    lift (make_fields_datetime data ["ended_at"; "started_at"]).

Definition create_clip (broadcaster_id : string) (has_delay : bool) : M (pyval datetime) :=
  let param := dict_of [(KStr "broadcaster_id", VStr broadcaster_id);
                        (KStr "has_delay", VStr (str_lower_of_bool has_delay))] in
  let url := build_url (TWITCH_API_BASE_URL +:+ "clips") param None None in
  let! result := __api_post_request url USER [CLIPS_EDIT] None in
  lift (response_json result).

Definition get_clips (broadcaster_id game_id : string) (clip_id : list string)
    (after before : option string) (ended_at started_at : option datetime)
    : M (pyval datetime) :=
  let param := dict_of [(KStr "broadcaster_id", VStr broadcaster_id);
                        (KStr "game_id", VStr game_id);
                        (KStr "clip_id", VList (VStr <$> clip_id));
                        (KStr "after", of_optional_str after);
                        (KStr "before", of_optional_str before);
                        (KStr "ended_at", isoformat_or_None ended_at);
                        (KStr "started_at", isoformat_or_None started_at)] in
  let url := build_url (TWITCH_API_BASE_URL +:+ "clips") param (Some true) (Some true) in
  let! result := __api_get_request url NONE (Some []) in
  let! data := lift (response_json result) in
  lift (make_fields_datetime data ["created_at"]).

Definition create_entitlement_grants_upload_url (manifest_id : string)
    : M (pyval datetime) :=
  if (Z.of_nat (String.length manifest_id) <? 1)
     || (64 <? Z.of_nat (String.length manifest_id))
  then raise (Exception "manifest_id must be between 1 and 64 characters long!")
  else
    let param := dict_of [(KStr "manifest_id", VStr manifest_id);
                          (KStr "type", VStr "bulk_drops_grant")] in
    let url := build_url (TWITCH_API_BASE_URL +:+ "entitlements/upload") param
                 None None in
    let! result := __api_post_request url APP [] None in
    lift (response_json result).

(** The dict display of [get_top_games]. *)
Definition get_top_games_param (after before : option string) (first : Z)
    : dict datetime :=
  dict_of [(KStr "after", of_optional_str after);
           (KStr "before", of_optional_str before);
           (KStr "first", VInt first)].

Definition get_top_games (after before : option string) (first : Z)
    : M (pyval datetime) :=
  if (first <? 1) || (100 <? first)
  then raise (Exception "first must be between 1 and 100")
  else
    let param := get_top_games_param after before first in
    let url := build_url (TWITCH_API_BASE_URL +:+ "games/top") param (Some true) None in
    let! result := __api_get_request url NONE (Some []) in
    lift (response_json result).

Definition get_games (game_ids names : option (list string)) : M (pyval datetime) :=
  if is_None game_ids && is_None names
  then raise (Exception "at least one of either game_ids and names has to be set")
  else if 100 <? len_or_0 game_ids + len_or_0 names
  then raise (Exception "in total, only 100 game_ids and names can be passed")
  else
    let param := dict_of [(KStr "id", of_optional_list game_ids);
                          (KStr "name", of_optional_list names)] in
    let url := build_url (TWITCH_API_BASE_URL +:+ "games") param
                 (Some true) (Some true) in
    let! result := __api_get_request url NONE (Some []) in
    lift (response_json result).

(** The JSON body of [check_automod_status]. *)
Definition check_automod_status_body (msg_id msg_text user_id : string)
    : pyval datetime :=
  VDict (dict_of [(KStr "data",
                   VList [VDict (dict_of [(KStr "msg_id", VStr msg_id);
                                          (KStr "msg_text", VStr msg_text);
                                          (KStr "user_id", VStr user_id)])])]).

Definition check_automod_status (broadcaster_id msg_id msg_text user_id : string)
    : M (pyval datetime) :=
  let url_param := dict_of [(KStr "broadcaster_id", VStr broadcaster_id)] in
  let url := build_url (TWITCH_API_BASE_URL +:+ "moderation/enforcements/status")
               url_param None None in
  let body := check_automod_status_body msg_id msg_text user_id in
  let! result := __api_post_request url USER [MODERATION_READ] (Some body) in
  lift (response_json result).

Definition get_banned_events (broadcaster_id : string) (user_id after : option string)
    (first : Z) : M (pyval datetime) :=
  if (100 <? first) || (first <? 1)
  then raise (Exception "first must be between 1 and 100")
  else
    let param := dict_of [(KStr "broadcaster_id", VStr broadcaster_id);
                          (KStr "user_id", of_optional_str user_id);
                          (KStr "after", of_optional_str after);
                          (KStr "first", VInt first)] in
    let url := build_url (TWITCH_API_BASE_URL +:+ "moderation/banned/events") param
                 (Some true) None in
    let! result := __api_get_request url USER (Some [MODERATION_READ]) in
    let! data := lift (response_json result) in
    let data := fields_to_enum data ["event_type"] ModerationEventType
                  ModerationEventType_UNKNOWN in
    let! data := lift (make_fields_datetime data ["event_timestamp"; "expires_at"]) in
    ret data.

Definition get_banned_users (broadcaster_id : string)
    (user_id after before : option string) : M (pyval datetime) :=
  let param := dict_of [(KStr "broadcaster_id", VStr broadcaster_id);
                        (KStr "user_id", of_optional_str user_id);
                        (KStr "after", of_optional_str after);
                        (KStr "before", of_optional_str before)] in
  let url := build_url (TWITCH_API_BASE_URL +:+ "moderation/banned") param
               (Some true) None in
  let! result := __api_get_request url USER (Some [MODERATION_READ]) in
  let! data := lift (response_json result) in
  lift (make_fields_datetime data ["expires_at"]).

(** The dates an analytics call accepts: none, or both with the start not
    after the end. *)
Definition dates_in_order (ended_at started_at : option datetime) : Prop :=
  match ended_at, started_at with
  | None, None => True
  | Some e, Some s => datetime_lt e s = inr false
  | _, _ => False
  end.

(** ** What a method does to the world *)

(** The method writes nothing and sends nothing. *)
Definition silent {A : Type} (m : M A) : Prop := ∀ w : World datetime, (m w).2 = w.

(** The method leaves the client object as it is and sends at most one
    request, taking its reply off the network. *)
Definition one_request {A : Type} (m : M A) : Prop :=
  ∀ w : World datetime,
    client (m w).2 = client w
    ∧ ((m w).2 = w
       ∨ ∃ req, sent (m w).2 = (sent w ++ [req])%list
                ∧ inbox (m w).2 = tail (inbox w)).

End MoreEndpoints.

(** ** More sample worlds *)

(** The moderation events, for running [get_banned_events]. *)
Definition sample_events : EnumType :=
  {| enum_cls := "ModerationEventType";
     enum_members := [("BAN", "moderation.user.ban"); ("UNBAN", "moderation.user.unban")] |}.

Definition sample_unknown : pyval Z := VEnum "ModerationEventType" "UNKNOWN".

(** A client that only has the app credential, and one that only has a
    user credential without scopes; nothing is waiting on the network. *)
Definition app_only : World Z :=
  {| client := Sample.app_authenticated; sent := []; inbox := [] |}.

Definition user_only : World Z :=
  {| client := Sample.user_authenticated; sent := []; inbox := [] |}.

(** * Properties *)

Section Dicts.
Context {datetime : Type}.
Implicit Types (d : dict datetime) (k : pykey) (v : pyval datetime).

Lemma dict_get_set_eq d k v : dict_get k (dict_set k v d) = Some v.
Proof.
  induction d as [|[k' v'] d IH]; simpl.
  - by rewrite decide_True.
  - destruct (decide (k = k')) as [->|Hne]; simpl.
    + by rewrite decide_True.
    + by rewrite decide_False.
Qed.

Lemma dict_get_set_ne d k k' v : k ≠ k' → dict_get k' (dict_set k v d) = dict_get k' d.
Proof.
  intros Hne. induction d as [|[k0 v0] d IH]; simpl.
  - by rewrite decide_False.
  - destruct (decide (k = k0)) as [->|Hk]; simpl.
    + by rewrite !decide_False.
    + destruct (decide (k' = k0)); [done | apply IH].
Qed.

End Dicts.

Section Loops.
Context {A : Type}.
Implicit Types (l : list A) (body : A → Result unit).

Lemma for_in_all_ok l body : (∀ x, x ∈ l → body x = inr tt) → for_in l body = inr tt.
Proof.
  induction l as [|x l IH]; intros Hall; simpl; [done|].
  rewrite (Hall x) by left. apply IH. intros y Hy. apply Hall. by right.
Qed.

Lemma for_in_first_raise l body pre s post e :
  l = (pre ++ s :: post)%list → (∀ x, x ∈ pre → body x = inr tt) → body s = inl e →
  for_in l body = inl e.
Proof.
  intros -> Hpre Hs. induction pre as [|x pre IH]; simpl.
  - by rewrite Hs.
  - rewrite (Hpre x) by left. apply IH. intros y Hy. apply Hpre. by right.
Qed.

Lemma for_in_ok_inv l body u : for_in l body = inr u → ∀ x, x ∈ l → body x = inr tt.
Proof.
  induction l as [|y l IH]; simpl; intros Hrun x Hx.
  - by apply elem_of_nil in Hx.
  - destruct (body y) as [e|[]] eqn:Hy; [done|].
    apply elem_of_cons in Hx as [->|Hx]; [done | by apply IH].
Qed.

End Loops.

Section Headers.
Context {datetime : Type} {helpers : Helpers datetime}.
Implicit Types (self : Twitch datetime) (R : list AuthScope) (h : dict datetime).

(** One pass of the scope loop: it raises on a scope the credential lacks. *)
Lemma scope_check_granted (granted : list AuthScope) (msg : string) (s : AuthScope) :
  s ∈ granted →
  (if bool_decide (s ∉ granted)
   then inl (MissingScopeException (msg +:+ name s)) else inr tt)
  = (inr tt : Result unit).
Proof. intros Hs. by rewrite bool_decide_false by (intros Hn; by apply Hn). Qed.

Lemma scope_check_missing (granted : list AuthScope) (msg : string) (s : AuthScope) :
  s ∉ granted →
  (if bool_decide (s ∉ granted)
   then inl (MissingScopeException (msg +:+ name s)) else inr tt)
  = (inl (MissingScopeException (msg +:+ name s)) : Result unit).
Proof. intros Hs. by rewrite bool_decide_true. Qed.

Lemma scope_check_inv (granted : list AuthScope) (msg : string) (s : AuthScope) :
  (if bool_decide (s ∉ granted)
   then inl (MissingScopeException (msg +:+ name s)) else inr tt)
  = (inr tt : Result unit) →
  s ∈ granted.
Proof.
  case_bool_decide as Hs; [done | by intros _].
Qed.

(** A list that is not within the granted scopes has a first scope outside. *)
Lemma first_missing_scope (granted R : list AuthScope) :
  ¬ (∀ x, x ∈ R → x ∈ granted) →
  ∃ pre s post, R = (pre ++ s :: post)%list ∧ (∀ x, x ∈ pre → x ∈ granted)
                ∧ (s ∉ granted).
Proof.
  induction R as [|y R IH]; intros Hnot.
  - destruct Hnot. intros x Hx. by apply elem_of_nil in Hx.
  - destruct (decide (y ∈ granted)) as [Hy|Hy].
    + destruct IH as (pre & s & post & -> & Hpre & Hs).
      { intros Hall. apply Hnot. intros x Hx.
        apply elem_of_cons in Hx as [->|Hx]; [done | by apply Hall]. }
      exists (y :: pre), s, post. split; [done|]. split; [|done].
      intros x Hx. apply elem_of_cons in Hx as [->|Hx]; [done | by apply Hpre].
    + exists [], y, R. split; [done|]. split; [|done].
      intros x Hx. by apply elem_of_nil in Hx.
Qed.

(** The branch that modes App and User share, on the credential [c]. *)
Lemma credential_branch_contract (c : Credential datetime)
    (unauthenticated missing id : string) R :
  mode_contract c unauthenticated missing id R
    (if negb (present c)
     then inl (UnauthorizedException unauthenticated)
     else
       try! _u := for_in R (λ s,
                    if bool_decide (s ∉ scopes c)
                    then inl (MissingScopeException (missing +:+ name s))
                    else inr tt) in
       inr (dict_set (KStr "Authorization") (bearer c)
              (dict_of [(KStr "Client-ID", VStr id)]))).
Proof.
  assert (∀ pre s post, R = (pre ++ s :: post)%list →
            (∀ x, x ∈ pre → x ∈ scopes c) → s ∉ scopes c →
            for_in R (λ s,
              if bool_decide (s ∉ scopes c)
              then inl (MissingScopeException (missing +:+ name s))
              else inr tt)
            = inl (MissingScopeException (missing +:+ name s))) as Hfirst.
  { intros pre s post HR Hpre Hs.
    eapply for_in_first_raise; [exact HR | |].
    - intros x Hx. by apply scope_check_granted, Hpre.
    - by apply scope_check_missing. }
  unfold mode_contract. destruct (present c); simpl.
  - split; [done|]. split; [|split].
    + intros _ pre s post HR Hpre Hs. by rewrite (Hfirst pre s post).
    + intros _ Hnot.
      destruct (first_missing_scope _ _ Hnot) as (pre & s & post & HR & Hpre & Hs).
      exists pre, s, post. by rewrite (Hfirst pre s post).
    + intros _ Hall. rewrite for_in_all_ok.
      * eexists. split; [done|]. by split.
      * intros x Hx. by apply scope_check_granted, Hall.
  - split; [done|]. by repeat split.
Qed.

(** C1. In mode App, [__generate_header] raises UnauthorizedException when
    the app credential is absent, raises MissingScopeException naming the
    first required scope that the app credential lacks when there is one,
    and otherwise returns headers with Client-ID and
    "Authorization: Bearer <app token>"; mode User is the same on the user
    credential. *)
Theorem generate_header_app_user self R :
  mode_contract (app_credential self) "Require app authentication!"
    "Require app auth scope " (app_id self) R (__generate_header self APP R)
  ∧ mode_contract (user_credential self) "require user authentication!"
    "Require user auth scope " (app_id self) R (__generate_header self USER R).
Proof.
  split.
  - apply (credential_branch_contract (app_credential self)).
  - apply (credential_branch_contract (user_credential self)).
Qed.

(** On success the Authorization entry is the bearer text of the credential
    that [header_source] names, and is missing when it names none. *)
Lemma generate_header_authorization self auth_type R h :
  __generate_header self auth_type R = inr h →
  dict_get (KStr "Authorization") h = bearer <$> header_source self auth_type.
Proof.
  unfold __generate_header, header_source.
  destruct auth_type; simpl.
  1,4: destruct (__has_user_auth self), (__has_app_auth self); simpl;
       by intros [= <-].
  - destruct (__has_user_auth self); simpl; [|done].
    destruct (for_in _ _); [done|]. by intros [= <-].
  - destruct (__has_app_auth self); simpl; [|done].
    destruct (for_in _ _); [done|]. by intros [= <-].
Qed.

(** C2, amended. Whenever [__generate_header] succeeds in mode App or User
    (or with no required scope in any mode), the credential its
    Authorization header is built from was granted every required scope. *)
Theorem generate_header_scope_invariant self auth_type R :
  auth_type = APP ∨ auth_type = USER ∨ R = [] →
  scope_invariant self auth_type R.
Proof.
  intros Hmode h c Hrun Hsrc s Hs.
  destruct Hmode as [-> | [-> | ->]]; [| | by apply elem_of_nil in Hs].
  - injection Hsrc as <-. simpl.
    unfold __generate_header in Hrun.
    destruct (__has_app_auth self); simpl in Hrun; [|done].
    destruct (for_in R _) as [e|u] eqn:Hloop; [done|].
    eapply scope_check_inv, (for_in_ok_inv _ _ _ Hloop); exact Hs.
  - injection Hsrc as <-. simpl.
    unfold __generate_header in Hrun.
    destruct (__has_user_auth self); simpl in Hrun; [|done].
    destruct (for_in R _) as [e|u] eqn:Hloop; [done|].
    eapply scope_check_inv, (for_in_ok_inv _ _ _ Hloop); exact Hs.
Qed.

(** C3, amended. In mode None [__generate_header] always succeeds, for any
    required scopes; its headers carry the bearer text of the user
    credential if that is present, else of the app credential if that is
    present, and have no Authorization entry exactly when neither is. *)
Theorem generate_header_none self R :
  ∃ h, __generate_header self NONE R = inr h
       ∧ dict_get (KStr "Client-ID") h = Some (VStr (app_id self))
       ∧ dict_get (KStr "Authorization") h
         = (if __has_user_auth self then Some (bearer (user_credential self))
            else if __has_app_auth self then Some (bearer (app_credential self))
            else None)
       ∧ (dict_get (KStr "Authorization") h = None
          ↔ __has_user_auth self = false ∧ __has_app_auth self = false).
Proof.
  unfold __generate_header.
  destruct (__has_user_auth self), (__has_app_auth self); simpl;
    eexists; (split; [reflexivity|]); simpl; repeat split; try done;
    by intros [? ?].
Qed.

End Headers.

(** The sample clients are the ones the setup operations produce. *)
Example app_authenticated_reached :
  authenticate_app [Sample.BITS_READ] (Sample.fresh [Sample.token_reply "tok1"])
  = (inr tt,
     {| client := Sample.app_authenticated;
        sent := [{| method := POST;
                    url := "https://id.twitch.tv/oauth2/token?client_id=my-app&client_secret=my-secret&grant_type=client_credentials&scope=BITS_READ ";
                    headers := None; json_data := None |}];
        inbox := [] |}).
Proof. reflexivity. Qed.

Example user_authenticated_reached :
  set_user_authentication "utok" [] (Sample.fresh [])
  = (inr tt, {| client := Sample.user_authenticated; sent := []; inbox := [] |}).
Proof. reflexivity. Qed.

(** Each case of C1 on the sample client: a missing scope is named, an
    absent credential is refused, and granted scopes give the bearer header. *)
Lemma generate_header_app_user_witness :
  __generate_header Sample.app_authenticated APP [Sample.BITS_READ; Sample.CLIPS_EDIT]
    = inl (MissingScopeException "Require app auth scope CLIPS_EDIT")
  ∧ __generate_header Sample.app_authenticated APP [Sample.CLIPS_EDIT]
    = inl (MissingScopeException "Require app auth scope CLIPS_EDIT")
  ∧ __generate_header Sample.app_authenticated USER [Sample.BITS_READ]
    = inl (UnauthorizedException "require user authentication!")
  ∧ ∃ h, __generate_header Sample.app_authenticated APP [Sample.BITS_READ] = inr h
         ∧ dict_get (KStr "Client-ID") h = Some (VStr "my-app")
         ∧ dict_get (KStr "Authorization") h = Some (VStr "Bearer tok1").
Proof.
  split; [|split; [|split]].
  - destruct (generate_header_app_user Sample.app_authenticated
                [Sample.BITS_READ; Sample.CLIPS_EDIT]) as [(_ & Hmissing & _ & _) _].
    apply (Hmissing eq_refl [Sample.BITS_READ] Sample.CLIPS_EDIT []); [reflexivity | done |].
    intros Hin. apply list_elem_of_singleton in Hin. discriminate.
  - destruct (generate_header_app_user Sample.app_authenticated [Sample.CLIPS_EDIT])
      as [(_ & Hmissing & _ & _) _].
    apply (Hmissing eq_refl [] Sample.CLIPS_EDIT []); [reflexivity | |].
    + intros x Hx. by apply elem_of_nil in Hx.
    + intros Hin. apply list_elem_of_singleton in Hin. discriminate.
  - destruct (generate_header_app_user Sample.app_authenticated [Sample.BITS_READ])
      as [_ (Habsent & _)].
    apply Habsent. reflexivity.
  - destruct (generate_header_app_user Sample.app_authenticated [Sample.BITS_READ])
      as [(_ & _ & _ & Hgranted) _].
    apply Hgranted; [reflexivity | done].
Defined.

(** C2 as stated fails: in mode None the user token is attached although the
    user credential was granted none of the required scopes. *)
Lemma scope_invariant_counterexample :
  ¬ scope_invariant Sample.user_authenticated NONE [Sample.BITS_READ].
Proof.
  intros Hinv.
  specialize (Hinv _ (user_credential Sample.user_authenticated) eq_refl eq_refl
                Sample.BITS_READ).
  simpl in Hinv. eapply elem_of_nil, Hinv. by left.
Qed.

Lemma generate_header_scope_invariant_witness :
  (APP = APP ∨ APP = USER ∨ [Sample.BITS_READ] = [])
  ∧ __generate_header Sample.app_authenticated APP [Sample.BITS_READ]
    = inr [(KStr "Client-ID", VStr "my-app"); (KStr "Authorization", VStr "Bearer tok1")]
  ∧ scope_invariant Sample.app_authenticated APP [Sample.BITS_READ].
Proof.
  split; [by left|]. split; [reflexivity|].
  apply generate_header_scope_invariant. by left.
Defined.

(** C3 as stated fails: with a user credential set, mode None sends it. *)
Lemma none_omits_authorization_counterexample :
  ¬ none_omits_authorization Sample.user_authenticated [].
Proof. intros (h & [= <-] & Hno). discriminate Hno. Qed.

Section Authentication.
Context {datetime : Type} {helpers : Helpers datetime}.
Implicit Types (w : World datetime) (scope : list AuthScope) (r : Response datetime).

(** The run of [authenticate_app] against a reply whose status is not 200:
    the requested scopes are already stored when the request goes out, and
    nothing else of the object is written. *)
Lemma authenticate_app_refused_run w scope r rest :
  inbox w = r :: rest → status_code r ≠ 200 →
  authenticate_app scope w
  = (inl (Exception ("Authentication failed with code " +:+ pretty (status_code r)
                     +:+ " (" +:+ text r +:+ ")")),
     {| client := set_app_auth_scope scope (client w);
        sent := (sent w ++ [token_request (set_app_auth_scope scope (client w))])%list;
        inbox := rest |}).
Proof.
  intros Hinbox Hstatus.
  unfold authenticate_app, __generate_app_token, bind, modify_self, get_self,
    requests_send, raise; simpl.
  rewrite Hinbox. by rewrite bool_decide_true.
Qed.

(** C4, amended. When the token request is answered with a status other than
    200, [authenticate_app] raises an Exception that carries the status code
    and the body, after exactly one request, and leaves the app token, the
    [__has_app_auth] flag and the user credential as they were: a client
    whose app credential was not marked present is not marked present
    afterwards, and no token has been stored on the way. *)
Theorem authenticate_app_refused w scope r rest :
  inbox w = r :: rest → status_code r ≠ 200 →
  ∃ req w',
    authenticate_app scope w
    = (inl (Exception ("Authentication failed with code " +:+ pretty (status_code r)
                       +:+ " (" +:+ text r +:+ ")")), w')
    ∧ sent w' = (sent w ++ [req])%list
    ∧ __has_app_auth (client w') = __has_app_auth (client w)
    ∧ __app_auth_token (client w') = __app_auth_token (client w)
    ∧ user_credential (client w') = user_credential (client w)
    ∧ (__has_app_auth (client w) = false → __has_app_auth (client w') = false).
Proof.
  intros Hinbox Hstatus.
  do 2 eexists. split; [by apply authenticate_app_refused_run|].
  simpl. by repeat split.
Qed.

End Authentication.

Lemma authenticate_app_refused_witness :
  inbox (Sample.fresh [Sample.refusal]) = [Sample.refusal]
  ∧ status_code Sample.refusal ≠ 200
  ∧ ∃ req w',
      authenticate_app [Sample.BITS_READ] (Sample.fresh [Sample.refusal])
      = (inl (Exception "Authentication failed with code 403 (invalid client secret)"), w')
      ∧ sent w' = [req]
      ∧ __has_app_auth (client w') = false
      ∧ __app_auth_token (client w') = VNone.
Proof.
  split; [reflexivity|]. split; [done|].
  destruct (authenticate_app_refused (Sample.fresh [Sample.refusal])
              [Sample.BITS_READ] Sample.refusal [] eq_refl)
    as (req & w' & Hrun & Hsent & Hflag & Htoken & _); [done|].
  exists req, w'. by repeat split.
Defined.

(** C4 as stated fails: a client that authenticated before stays marked
    present when a later token request is refused. *)
Lemma refusal_leaves_absent_counterexample :
  ¬ refusal_leaves_absent
      {| client := Sample.app_authenticated; sent := []; inbox := [Sample.refusal] |}
      [Sample.CLIPS_EDIT].
Proof.
  intros Hclaim.
  destruct (Hclaim Sample.refusal [] eq_refl) as (e & w' & Hrun & Hflag); [done|].
  injection Hrun as _ <-. discriminate Hflag.
Qed.

(** C5 at a refused re-authentication: the first call stores the token
    ["tok1"] for [BITS_READ]; the second, asking for [CLIPS_EDIT], is
    refused, and the app credential is left with the old token next to the
    new scopes and still marked present, so that [__generate_header] sends
    ["tok1"] for a request that requires [CLIPS_EDIT]. *)
Theorem authenticate_app_partial_update :
  let w1 := (authenticate_app [Sample.BITS_READ]
               (Sample.fresh [Sample.token_reply "tok1"; Sample.refusal])).2 in
  let out := authenticate_app [Sample.CLIPS_EDIT] w1 in
  client w1 = Sample.app_authenticated
  ∧ out.1 = inl (Exception "Authentication failed with code 403 (invalid client secret)")
  ∧ app_credential (client out.2)
    = {| token := VStr "tok1"; scopes := [Sample.CLIPS_EDIT]; present := true |}
  ∧ __generate_header (client out.2) APP [Sample.CLIPS_EDIT]
    = inr [(KStr "Client-ID", VStr "my-app"); (KStr "Authorization", VStr "Bearer tok1")].
Proof. repeat split. Qed.

Section Endpoints.
Context {datetime : Type} {helpers : Helpers datetime}.
Implicit Types (w : World datetime) (code : list string).

(** C6. When exactly one of [started_at] and [ended_at] is given,
    [get_extension_analytics] and [get_game_analytics] raise the Exception
    that asks for both, and the world is as before: no request was sent. *)
Theorem analytics_dates_pairing w (after extension_id game_id : option string)
    (first : Z) (ended_at started_at : option datetime)
    (report_type : option AnalyticsReportType) :
  is_None ended_at ≠ is_None started_at →
  get_extension_analytics after extension_id first ended_at started_at report_type w
  = (inl (Exception "you must specify both ended_at and started_at"), w)
  ∧ get_game_analytics after first game_id ended_at started_at report_type w
  = (inl (Exception "you must specify both ended_at and started_at"), w).
Proof. by destruct ended_at, started_at. Qed.

(** The size check of the code endpoints calls [count] without an argument. *)
Lemma code_count_raises code : code_count_out_of_range code = inl TypeError.
Proof. reflexivity. Qed.

(** C9 on the code: for every list of codes, [get_code_status] and
    [redeem_code] stop in the size check with a TypeError, before any
    request; no list gets through to the request. *)
Theorem code_endpoints_raise_TypeError w code (user_id : Z) :
  get_code_status code user_id w = (inl TypeError, w)
  ∧ redeem_code code user_id w = (inl TypeError, w).
Proof. split; reflexivity. Qed.

(** C10. Every call of [get_webhook_subscriptions] raises the TypeError of
    the missing [required_scope] argument, and the world is as before: no
    request was sent. *)
Theorem get_webhook_subscriptions_raises w (first after : option string) :
  get_webhook_subscriptions first after w = (inl TypeError, w)
  ∧ sent (get_webhook_subscriptions first after w).2 = sent w.
Proof. split; reflexivity. Qed.

(** C8 on the code: for a count in range and an authenticated app, the
    mapping that [get_extension_transactions] hands to [build_url] has no
    key ["first"]; the count is stored under the integer key [first]. *)
Theorem get_extension_transactions_first_key w (extension_id : string)
    (transaction_id after : option string) (first : Z) :
  1 ≤ first ≤ 100 → __has_app_auth (client w) = true →
  let url_param :=
    get_extension_transactions_url_param extension_id transaction_id after first in
  dict_get (KStr "first") url_param = None
  ∧ dict_get (KInt first) url_param = Some (VInt first)
  ∧ ∃ hdr,
      sent (get_extension_transactions extension_id transaction_id after first w).2
      = (sent w ++ [{| method := GET;
                       url := build_url (TWITCH_API_BASE_URL +:+ "extensions/transactions")
                                url_param (Some true) None;
                       headers := Some hdr; json_data := None |}])%list.
Proof.
  intros Hrange Hauth url_param. split; [|split].
  - etrans; [by apply (dict_get_set_ne _ (KInt first)) | done].
  - apply dict_get_set_eq.
  - unfold get_extension_transactions.
    replace ((100 <? first) || (first <? 1)) with false by lia.
    unfold bind, __api_get_request, bind, get_self, lift, __generate_header,
      requests_send. simpl. rewrite Hauth. simpl.
    eexists. by destruct (inbox w) as [|r rest]; simpl; [|destruct (response_json r)].
Qed.

End Endpoints.

Lemma analytics_dates_pairing_witness :
  is_None (Some 1590000000) ≠ is_None (@None Z)
  ∧ get_extension_analytics None None 20 (Some 1590000000) None None (Sample.fresh [])
    = (inl (Exception "you must specify both ended_at and started_at"), Sample.fresh [])
  ∧ get_game_analytics None 20 None (Some 1590000000) None None (Sample.fresh [])
    = (inl (Exception "you must specify both ended_at and started_at"), Sample.fresh []).
Proof.
  split; [done|].
  apply (analytics_dates_pairing (Sample.fresh []) None None None 20
           (Some 1590000000) None None). done.
Defined.

Lemma get_extension_transactions_first_key_witness :
  let w := {| client := Sample.app_authenticated; sent := [];
              inbox := [Sample.ok_reply (VDict [])] |} in
  1 ≤ 20 ≤ 100
  ∧ dict_get (KStr "first")
      (get_extension_transactions_url_param (datetime := Z) "ext" None None 20) = None
  ∧ dict_get (KInt 20)
      (get_extension_transactions_url_param (datetime := Z) "ext" None None 20)
    = Some (VInt 20)
  ∧ url <$> sent (get_extension_transactions "ext" None None 20 w).2
    = ["https://api.twitch.tv/helix/extensions/transactions?extension_id=ext&20=20"].
Proof.
  intros w. split; [lia|].
  destruct (get_extension_transactions_first_key w "ext" None None 20)
    as (Hno & Hint & hdr & Hsent); [lia | reflexivity |].
  split; [exact Hno|]. split; [exact Hint|]. reflexivity.
Defined.

Section Normalizer.
Context {datetime : Type}.
Implicit Types (body v : pyval datetime) (d : dict datetime) (p : list step)
  (fields : list string) (_enum : EnumType).

(** Rewriting the values of a dict leaves its keys where they are. *)
Lemma dict_get_map_values (g : pykey → pyval datetime → pyval datetime) d k :
  dict_get k (map (λ '(k', v), (k', g k' v)) d) = g k <$> dict_get k d.
Proof.
  induction d as [|[k' v] d IH]; simpl; [done|].
  by destruct (decide (k = k')) as [->|].
Qed.

(** A string has no fields and no items. *)
Lemma at_path_str p st (s : string) (x : pyval datetime) :
  at_path (p ++ [st]) (VStr s) ≠ Some x.
Proof. by destruct p as [|[] ?]; destruct st. Qed.

Lemma enum_lookup_None _enum (s : string) :
  (∀ m, m ∈ enum_members _enum → m.2 ≠ s) → enum_lookup (datetime := datetime) _enum s = None.
Proof.
  unfold enum_lookup. intros Hno.
  induction (enum_members _enum) as [|m ms IH]; simpl; [done|].
  rewrite bool_decide_false by (apply Hno; by left).
  apply IH. intros m' Hm'. apply Hno. by right.
Qed.

Lemma enum_lookup_Some _enum (s : string) :
  (∃ m, m ∈ enum_members _enum ∧ m.2 = s) →
  ∃ n, (n, s) ∈ enum_members _enum
       ∧ enum_lookup (datetime := datetime) _enum s = Some (VEnum (enum_cls _enum) n).
Proof.
  unfold enum_lookup. intros (m & Hm & Hs).
  induction (enum_members _enum) as [|[n' s'] ms IH]; simpl.
  - by apply elem_of_nil in Hm.
  - case_bool_decide as Hhead; simpl in *.
    + subst s'. exists n'. split; [by left | done].
    + apply elem_of_cons in Hm as [->|Hm]; [done|].
      destruct (IH Hm) as (n & Hn & Hfind). exists n. split; [by right | done].
Qed.

(** The normalised body has, at every position of a named field that held a
    string, what the enumeration makes of that string. *)
Lemma fields_to_enum_at_path body fields _enum default p (f s : string) :
  f ∈ fields →
  at_path (p ++ [Field f]) body = Some (VStr s) →
  at_path (p ++ [Field f]) (fields_to_enum body fields _enum default)
  = Some (match enum_lookup _enum s with Some c => c | None => default end).
Proof.
  intros Hf. revert body.
  induction p as [|st p IH]; intros body Hbody.
  - destruct body as [| | | |l|d| |]; try done. simpl in *.
    rewrite (dict_get_map_values
               (λ k v, match k, v with
                       | KStr f', VStr s' =>
                           if bool_decide (f' ∈ fields)
                           then match enum_lookup _enum s' with
                                | Some c => c
                                | None => default
                                end
                           else v
                       | _, _ => fields_to_enum v fields _enum default
                       end)).
    destruct (dict_get (KStr f) d) as [x|]; [|done].
    injection Hbody as ->. simpl. by rewrite bool_decide_true.
  - destruct st as [g|i]; destruct body as [| | | |l|d| |]; try done; simpl in *.
    + rewrite (dict_get_map_values
                 (λ k v, match k, v with
                         | KStr f', VStr s' =>
                             if bool_decide (f' ∈ fields)
                             then match enum_lookup _enum s' with
                                  | Some c => c
                                  | None => default
                                  end
                             else v
                         | _, _ => fields_to_enum v fields _enum default
                         end)).
      destruct (dict_get (KStr g) d) as [x|]; [|done]. simpl.
      destruct x; try (by apply IH); by apply at_path_str in Hbody.
    + rewrite list_lookup_fmap.
      destruct (l !! i) as [x|]; [|done]. simpl. by apply IH.
Qed.

(** C7. [fields_to_enum] is a total function, so it gives a body for every
    decoded body and every fallback; where a named field held a string, the
    result holds the fallback if no member of the enumeration has that value,
    and a member with that value if there is one. *)
Theorem fields_to_enum_unknown_tolerant body fields _enum default p (f s : string) :
  f ∈ fields →
  at_path (p ++ [Field f]) body = Some (VStr s) →
  ∃ c, at_path (p ++ [Field f]) (fields_to_enum body fields _enum default) = Some c
       ∧ ((∀ m, m ∈ enum_members _enum → m.2 ≠ s) → c = default)
       ∧ ((∃ m, m ∈ enum_members _enum ∧ m.2 = s) →
          ∃ n, (n, s) ∈ enum_members _enum ∧ c = VEnum (enum_cls _enum) n).
Proof.
  intros Hf Hbody. eexists. split; [by apply fields_to_enum_at_path|]. split.
  - intros Hno. by rewrite enum_lookup_None.
  - intros Hsome. destruct (enum_lookup_Some _enum s Hsome) as (n & Hn & ->).
    by exists n.
Qed.

End Normalizer.

Lemma fields_to_enum_unknown_tolerant_witness :
  let body : pyval Z :=
    VDict [(KStr "data",
            VList [VDict [(KStr "code", VStr "KUHXV-4GXYP-AKAKK");
                          (KStr "status", VStr "totally-unknown-value")]])] in
  "status" ∈ ["status"]
  ∧ at_path [Field "data"; Index 0; Field "status"] body
    = Some (VStr "totally-unknown-value")
  ∧ at_path [Field "data"; Index 0; Field "status"]
      (fields_to_enum body ["status"] CodeStatus CodeStatus_UNKNOWN_VALUE)
    = Some (VEnum "CodeStatus" "UNKNOWN_VALUE").
Proof.
  intros body. split; [by left|]. split; [reflexivity|].
  destruct (fields_to_enum_unknown_tolerant body ["status"] CodeStatus
              CodeStatus_UNKNOWN_VALUE [Field "data"; Index 0] "status"
              "totally-unknown-value") as (c & Hc & Hunknown & _);
    [by left | reflexivity |].
  rewrite Hunknown in Hc; [exact Hc|].
  intros m Hm. repeat (apply elem_of_cons in Hm as [->|Hm]; [done|]).
  by apply elem_of_nil in Hm.
Defined.

(** * The rest of the class *)

Section Frames.
Context {datetime : Type} {helpers : Helpers datetime}.
Implicit Types (w : World datetime).

Lemma silent_ret {A : Type} (a : A) : silent (datetime := datetime) (ret a).
Proof. by intros w. Qed.

Lemma silent_raise {A : Type} (e : exn) : silent (datetime := datetime) (A := A) (raise e).
Proof. by intros w. Qed.

Lemma silent_lift {A : Type} (r : Result A) : silent (datetime := datetime) (lift r).
Proof. by intros w. Qed.

Lemma silent_get_self : silent (datetime := datetime) get_self.
Proof. by intros w. Qed.

Lemma silent_bind {A B : Type} (m : M A) (k : A → M B) :
  silent (datetime := datetime) m → (∀ a, silent (k a)) → silent (bind m k).
Proof.
  intros Hm Hk w. unfold bind. specialize (Hm w).
  destruct (m w) as [[e|a] w1]; simpl in *; subst w1; [done | apply Hk].
Qed.

Lemma one_request_silent {A : Type} (m : M A) :
  silent (datetime := datetime) m → one_request m.
Proof. intros Hm w. rewrite Hm. by split; [|left]. Qed.

Lemma one_request_bind_l {A B : Type} (m : M A) (k : A → M B) :
  silent (datetime := datetime) m → (∀ a, one_request (k a)) → one_request (bind m k).
Proof.
  intros Hm Hk w. unfold bind. specialize (Hm w).
  destruct (m w) as [[e|a] w1]; simpl in *; subst w1; [by split; [|left] | apply Hk].
Qed.

Lemma one_request_bind_r {A B : Type} (m : M A) (k : A → M B) :
  one_request (datetime := datetime) m → (∀ a, silent (k a)) → one_request (bind m k).
Proof.
  intros Hm Hk w. unfold bind. specialize (Hm w).
  destruct (m w) as [[e|a] w1]; [done|].
  unfold silent in Hk. rewrite (Hk a w1). exact Hm.
Qed.

Lemma one_request_requests_send (req : Request datetime) : one_request (requests_send req).
Proof.
  intros w. unfold requests_send.
  destruct (inbox w) as [|r rest] eqn:Hinbox; simpl;
    (split; [done|]); right; exists req; by rewrite ?Hinbox.
Qed.

Lemma one_request_api_get (url : string) (auth_type : AuthType)
    (required_scope : option (list AuthScope)) :
  one_request (__api_get_request url auth_type required_scope).
Proof.
  destruct required_scope as [R|]; simpl.
  - apply one_request_bind_l; [apply silent_get_self|]. intros self.
    apply one_request_bind_l; [apply silent_lift|]. intros h.
    apply one_request_requests_send.
  - apply one_request_silent, silent_raise.
Qed.

Lemma one_request_api_post (url : string) (auth_type : AuthType)
    (required_scope : list AuthScope) (data : option (pyval datetime)) :
  one_request (__api_post_request url auth_type required_scope data).
Proof.
  apply one_request_bind_l; [apply silent_get_self|]. intros self.
  apply one_request_bind_l; [apply silent_lift|]. intros h.
  destruct data; apply one_request_requests_send.
Qed.

End Frames.

Ltac prove_silent :=
  cbv zeta;
  lazymatch goal with
  | |- silent (if ?c then _ else _) => destruct c; prove_silent
  | |- silent (bind _ _) => apply silent_bind; [prove_silent | intros; prove_silent]
  | |- silent (ret _) => apply silent_ret
  | |- silent (raise _) => apply silent_raise
  | |- silent (lift _) => apply silent_lift
  | |- silent get_self => apply silent_get_self
  end.

Ltac prove_one_request :=
  cbv zeta;
  lazymatch goal with
  | |- one_request (if ?c then _ else _) => destruct c; prove_one_request
  | |- one_request (__api_get_request _ _ _) => apply one_request_api_get
  | |- one_request (__api_post_request _ _ _ _) => apply one_request_api_post
  | |- one_request (bind _ _) =>
      first [ apply one_request_bind_r; [prove_one_request | intros; prove_silent]
            | apply one_request_bind_l; [prove_silent | intros; prove_one_request] ]
  | |- _ => apply one_request_silent; prove_silent
  end.

Section EndpointFrames.
Context {datetime : Type} {helpers : Helpers datetime}.
Variable ModerationEventType : EnumType.
Variable ModerationEventType_UNKNOWN : pyval datetime.

(** X1. No endpoint writes to the client object, and each sends at most
    one request, whatever its arguments and whatever the network answers. *)
Theorem endpoints_one_request :
  (∀ first after, one_request (get_webhook_subscriptions first after))
  ∧ (∀ user_ids logins, one_request (get_users user_ids logins))
  ∧ (∀ after extension_id first ended_at started_at report_type,
       one_request (get_extension_analytics after extension_id first ended_at
                      started_at report_type))
  ∧ (∀ after first game_id ended_at started_at report_type,
       one_request (get_game_analytics after first game_id ended_at started_at
                      report_type))
  ∧ (∀ count period started_at user_id,
       one_request (get_bits_leaderboard count period started_at user_id))
  ∧ (∀ extension_id transaction_id after first,
       one_request (get_extension_transactions extension_id transaction_id after first))
  ∧ (∀ broadcaster_id has_delay, one_request (create_clip broadcaster_id has_delay))
  ∧ (∀ broadcaster_id game_id clip_id after before ended_at started_at,
       one_request (get_clips broadcaster_id game_id clip_id after before ended_at
                      started_at))
  ∧ (∀ manifest_id, one_request (create_entitlement_grants_upload_url manifest_id))
  ∧ (∀ code user_id, one_request (get_code_status code user_id))
  ∧ (∀ code user_id, one_request (redeem_code code user_id))
  ∧ (∀ after before first, one_request (get_top_games after before first))
  ∧ (∀ game_ids names, one_request (get_games game_ids names))
  ∧ (∀ broadcaster_id msg_id msg_text user_id,
       one_request (check_automod_status broadcaster_id msg_id msg_text user_id))
  ∧ (∀ broadcaster_id user_id after first,
       one_request (get_banned_events ModerationEventType ModerationEventType_UNKNOWN
                      broadcaster_id user_id after first))
  ∧ (∀ broadcaster_id user_id after before,
       one_request (get_banned_users broadcaster_id user_id after before)).
Proof.
  repeat apply conj; intros.
  - unfold get_webhook_subscriptions. prove_one_request.
  - unfold get_users. prove_one_request.
  - unfold get_extension_analytics. prove_one_request.
  - unfold get_game_analytics. prove_one_request.
  - unfold get_bits_leaderboard. prove_one_request.
  - unfold get_extension_transactions. prove_one_request.
  - unfold create_clip. prove_one_request.
  - unfold get_clips. prove_one_request.
  - unfold create_entitlement_grants_upload_url. prove_one_request.
  - unfold get_code_status. prove_one_request.
  - unfold redeem_code. prove_one_request.
  - unfold get_top_games. prove_one_request.
  - unfold get_games. prove_one_request.
  - unfold check_automod_status. prove_one_request.
  - unfold get_banned_events. prove_one_request.
  - unfold get_banned_users. prove_one_request.
Qed.

End EndpointFrames.

Section HeaderFacts.
Context {datetime : Type} {helpers : Helpers datetime}.
Implicit Types (self : Twitch datetime) (R : list AuthScope) (h : dict datetime).

(** X2. Whatever the mode, headers that [__generate_header] returns hold the
    client id under Client-ID and have no key besides Client-ID and
    Authorization. *)
Theorem generate_header_keys self auth_type R h :
  __generate_header self auth_type R = inr h →
  dict_get (KStr "Client-ID") h = Some (VStr (app_id self))
  ∧ ∀ k, dict_get k h ≠ None → k = KStr "Client-ID" ∨ k = KStr "Authorization".
Proof.
  unfold __generate_header. intros Hrun.
  assert (∀ t : pyval datetime,
            let h' := dict_set (KStr "Authorization") t
                        (dict_of [(KStr "Client-ID", VStr (app_id self))]) in
            dict_get (KStr "Client-ID") h' = Some (VStr (app_id self))
            ∧ ∀ k, dict_get k h' ≠ None →
                   k = KStr "Client-ID" ∨ k = KStr "Authorization") as Hboth.
  { intros t. split; [done|]. intros k Hk. simpl in Hk.
    destruct (decide (k = KStr "Client-ID")); [by left|].
    destruct (decide (k = KStr "Authorization")); [by right | done]. }
  destruct auth_type.
  1,4: destruct (__has_user_auth self || __has_app_auth self);
       injection Hrun as <-; [apply Hboth|];
       (split; [done|]); intros k Hk; simpl in Hk;
       by destruct (decide (k = KStr "Client-ID")); [left|].
  - destruct (negb (__has_user_auth self)); [done|].
    destruct (for_in _ _); [done|]. injection Hrun as <-. apply Hboth.
  - destruct (negb (__has_app_auth self)); [done|].
    destruct (for_in _ _); [done|]. injection Hrun as <-. apply Hboth.
Qed.

(** X3. Requiring less never hurts: if [__generate_header] succeeds for the
    scopes [R], it returns the same headers for any list [R'] of scopes
    taken from [R], in any order and with any repetition. *)
Theorem generate_header_fewer_scopes self auth_type R R' h :
  __generate_header self auth_type R = inr h →
  (∀ s, s ∈ R' → s ∈ R) →
  __generate_header self auth_type R' = inr h.
Proof.
  unfold __generate_header. intros Hrun Hsub.
  destruct auth_type; [done | | | done].
  - destruct (negb (__has_user_auth self)); [done|].
    destruct (for_in R _) as [e|u] eqn:Hloop; [done|].
    rewrite for_in_all_ok; [done|].
    intros s Hs. apply scope_check_granted.
    eapply scope_check_inv, (for_in_ok_inv _ _ _ Hloop). by apply Hsub.
  - destruct (negb (__has_app_auth self)); [done|].
    destruct (for_in R _) as [e|u] eqn:Hloop; [done|].
    rewrite for_in_all_ok; [done|].
    intros s Hs. apply scope_check_granted.
    eapply scope_check_inv, (for_in_ok_inv _ _ _ Hloop). by apply Hsub.
Qed.

End HeaderFacts.

Lemma generate_header_keys_witness :
  __generate_header Sample.app_authenticated APP [Sample.BITS_READ]
  = inr [(KStr "Client-ID", VStr "my-app"); (KStr "Authorization", VStr "Bearer tok1")]
  ∧ dict_get (KStr "Client-ID")
      [(KStr "Client-ID", VStr "my-app");
       (KStr "Authorization", VStr (datetime := Z) "Bearer tok1")]
    = Some (VStr "my-app").
Proof.
  split; [reflexivity|].
  apply (generate_header_keys Sample.app_authenticated APP [Sample.BITS_READ]).
  reflexivity.
Defined.

Lemma generate_header_fewer_scopes_witness :
  __generate_header Sample.app_authenticated APP [Sample.BITS_READ]
  = inr [(KStr "Client-ID", VStr "my-app"); (KStr "Authorization", VStr "Bearer tok1")]
  ∧ (∀ s, s ∈ [Sample.BITS_READ; Sample.BITS_READ] → s ∈ [Sample.BITS_READ])
  ∧ __generate_header Sample.app_authenticated APP [Sample.BITS_READ; Sample.BITS_READ]
    = inr [(KStr "Client-ID", VStr "my-app"); (KStr "Authorization", VStr "Bearer tok1")].
Proof.
  assert (∀ s, s ∈ [Sample.BITS_READ; Sample.BITS_READ] → s ∈ [Sample.BITS_READ]) as Hsub.
  { intros s Hs. apply elem_of_cons in Hs as [->|Hs]; [by left | done]. }
  split; [reflexivity|]. split; [exact Hsub|].
  apply (generate_header_fewer_scopes Sample.app_authenticated APP [Sample.BITS_READ]);
    [reflexivity | exact Hsub].
Defined.

Section Requests.
Context {datetime : Type} {helpers : Helpers datetime}.
Implicit Types (w : World datetime) (R : list AuthScope) (h : dict datetime).

(** A failure of the header builder comes out of the request untouched, and
    nothing is sent. *)
Lemma api_get_header_error (url : string) auth_type R e w :
  __generate_header (client w) auth_type R = inl e →
  __api_get_request url auth_type (Some R) w = (inl e, w).
Proof.
  intros Hgen. unfold __api_get_request, bind, get_self, lift. simpl. by rewrite Hgen.
Qed.

Lemma api_post_header_error (url : string) auth_type R data e w :
  __generate_header (client w) auth_type R = inl e →
  __api_post_request url auth_type R data w = (inl e, w).
Proof.
  intros Hgen. unfold __api_post_request, bind, get_self, lift. simpl. by rewrite Hgen.
Qed.

(** With headers built and a reply waiting, exactly the one request goes out. *)
Lemma api_get_sends (url : string) auth_type R h r rest w :
  __generate_header (client w) auth_type R = inr h → inbox w = r :: rest →
  __api_get_request url auth_type (Some R) w
  = (inr r, {| client := client w;
               sent := (sent w ++ [{| method := GET; url := url; headers := Some h;
                                      json_data := None |}])%list;
               inbox := rest |}).
Proof.
  intros Hgen Hinbox.
  unfold __api_get_request, bind, get_self, lift, requests_send. simpl.
  by rewrite Hgen, Hinbox.
Qed.

Lemma api_post_sends (url : string) auth_type R data h r rest w :
  __generate_header (client w) auth_type R = inr h → inbox w = r :: rest →
  __api_post_request url auth_type R data w
  = (inr r, {| client := client w;
               sent := (sent w ++ [{| method := POST; url := url; headers := Some h;
                                      json_data := data |}])%list;
               inbox := rest |}).
Proof.
  intros Hgen Hinbox.
  unfold __api_post_request, bind, get_self, lift, requests_send. simpl.
  rewrite Hgen. by destruct data; simpl; rewrite Hinbox.
Qed.

(** The two ways the header builder refuses a user request. *)
Lemma generate_header_user_absent (self : Twitch datetime) R :
  __has_user_auth self = false →
  __generate_header self USER R = inl (UnauthorizedException "require user authentication!").
Proof. intros Habsent. unfold __generate_header. by rewrite Habsent. Qed.

Lemma generate_header_app_absent (self : Twitch datetime) R :
  __has_app_auth self = false →
  __generate_header self APP R = inl (UnauthorizedException "Require app authentication!").
Proof. intros Habsent. unfold __generate_header. by rewrite Habsent. Qed.

Lemma generate_header_user_missing (self : Twitch datetime) (s : AuthScope) :
  __has_user_auth self = true → s ∉ __user_auth_scope self →
  __generate_header self USER [s]
  = inl (MissingScopeException ("Require user auth scope " +:+ name s)).
Proof.
  intros Hpresent Hs. unfold __generate_header. rewrite Hpresent. simpl.
  by rewrite bool_decide_true.
Qed.

Lemma range_check_passes (n : Z) : 1 ≤ n ≤ 100 → (100 <? n) || (n <? 1) = false.
Proof. lia. Qed.

Lemma range_check_fails (n : Z) : ¬ 1 ≤ n ≤ 100 → (100 <? n) || (n <? 1) = true.
Proof. lia. Qed.

End Requests.

Section Preflight.
Context {datetime : Type} {helpers : Helpers datetime}.
Variable ModerationEventType : EnumType.
Variable ModerationEventType_UNKNOWN : pyval datetime.
Implicit Types (w : World datetime) (e : exn).

#[local] Arguments __api_get_request : simpl never.
#[local] Arguments __api_post_request : simpl never.

Lemma bind_get_header_error {A : Type} (url : string) auth_type R e w
    (k : Response datetime → M A) :
  __generate_header (client w) auth_type R = inl e →
  bind (__api_get_request url auth_type (Some R)) k w = (inl e, w).
Proof. intros Hgen. unfold bind. by rewrite (api_get_header_error _ _ _ e). Qed.

Lemma bind_post_header_error {A : Type} (url : string) auth_type R data e w
    (k : Response datetime → M A) :
  __generate_header (client w) auth_type R = inl e →
  bind (__api_post_request url auth_type R data) k w = (inl e, w).
Proof. intros Hgen. unfold bind. by rewrite (api_post_header_error _ _ _ _ e). Qed.

(** Dates in order get through the check of both analytics methods. *)
Lemma analytics_dates_accepted (ended_at started_at : option datetime) :
  dates_in_order ended_at started_at →
  py_gt started_at ended_at = inr false ∧ py_lt ended_at started_at = inr false
  ∨ ended_at = None ∧ started_at = None.
Proof. destruct ended_at, started_at; simpl; try done; [by left | by right]. Qed.

Lemma get_extension_analytics_header_error w e after extension_id first ended_at
    started_at report_type :
  dates_in_order ended_at started_at → 1 ≤ first ≤ 100 →
  __generate_header (client w) USER [ANALYTICS_READ_EXTENSION] = inl e →
  get_extension_analytics after extension_id first ended_at started_at report_type w
  = (inl e, w).
Proof.
  intros Hdates Hrange Hgen. unfold get_extension_analytics.
  destruct ended_at as [t1|], started_at as [t2|]; try done; unfold bind at 1; simpl.
  - unfold bind at 1, lift, py_gt. simpl. simpl in Hdates. rewrite Hdates. simpl.
    rewrite range_check_passes by done. by apply bind_get_header_error.
  - rewrite range_check_passes by done. by apply bind_get_header_error.
Qed.

Lemma get_game_analytics_header_error w e after first game_id ended_at started_at
    report_type :
  dates_in_order ended_at started_at → 1 ≤ first ≤ 100 →
  __generate_header (client w) USER [ANALYTICS_READ_GAMES] = inl e →
  get_game_analytics after first game_id ended_at started_at report_type w = (inl e, w).
Proof.
  intros Hdates Hrange Hgen. unfold get_game_analytics.
  destruct ended_at as [t1|], started_at as [t2|]; try done; unfold bind at 1; simpl.
  - unfold bind at 1, lift. simpl. simpl in Hdates. rewrite Hdates. simpl.
    rewrite range_check_passes by done. by apply bind_get_header_error.
  - rewrite range_check_passes by done. by apply bind_get_header_error.
Qed.

Lemma get_bits_leaderboard_header_error w e count period started_at user_id :
  1 ≤ count ≤ 100 →
  __generate_header (client w) USER [BITS_READ] = inl e →
  get_bits_leaderboard count period started_at user_id w = (inl e, w).
Proof.
  intros Hrange Hgen. unfold get_bits_leaderboard.
  rewrite range_check_passes by done. by apply bind_get_header_error.
Qed.

Lemma create_clip_header_error w e broadcaster_id has_delay :
  __generate_header (client w) USER [CLIPS_EDIT] = inl e →
  create_clip broadcaster_id has_delay w = (inl e, w).
Proof. intros Hgen. by apply bind_post_header_error. Qed.

Lemma check_automod_status_header_error w e broadcaster_id msg_id msg_text user_id :
  __generate_header (client w) USER [MODERATION_READ] = inl e →
  check_automod_status broadcaster_id msg_id msg_text user_id w = (inl e, w).
Proof. intros Hgen. by apply bind_post_header_error. Qed.

Lemma get_banned_events_header_error w e broadcaster_id user_id after first :
  1 ≤ first ≤ 100 →
  __generate_header (client w) USER [MODERATION_READ] = inl e →
  get_banned_events ModerationEventType ModerationEventType_UNKNOWN broadcaster_id
    user_id after first w = (inl e, w).
Proof.
  intros Hrange Hgen. unfold get_banned_events.
  rewrite range_check_passes by done. by apply bind_get_header_error.
Qed.

Lemma get_banned_users_header_error w e broadcaster_id user_id after before :
  __generate_header (client w) USER [MODERATION_READ] = inl e →
  get_banned_users broadcaster_id user_id after before w = (inl e, w).
Proof. intros Hgen. by apply bind_get_header_error. Qed.

(** X4. Without a user credential every endpoint of mode User raises
    UnauthorizedException and sends nothing, also when an app credential is
    set; without an app credential so do the endpoints of mode App. *)
Theorem endpoints_unauthorized w :
  (__has_user_auth (client w) = false →
   let refused := (inl (UnauthorizedException "require user authentication!"), w) in
   (∀ after extension_id first ended_at started_at report_type,
      dates_in_order ended_at started_at → 1 ≤ first ≤ 100 →
      get_extension_analytics after extension_id first ended_at started_at
        report_type w = refused)
   ∧ (∀ after first game_id ended_at started_at report_type,
        dates_in_order ended_at started_at → 1 ≤ first ≤ 100 →
        get_game_analytics after first game_id ended_at started_at report_type w
        = refused)
   ∧ (∀ count period started_at user_id, 1 ≤ count ≤ 100 →
        get_bits_leaderboard count period started_at user_id w = refused)
   ∧ (∀ broadcaster_id has_delay, create_clip broadcaster_id has_delay w = refused)
   ∧ (∀ broadcaster_id msg_id msg_text user_id,
        check_automod_status broadcaster_id msg_id msg_text user_id w = refused)
   ∧ (∀ broadcaster_id user_id after first, 1 ≤ first ≤ 100 →
        get_banned_events ModerationEventType ModerationEventType_UNKNOWN
          broadcaster_id user_id after first w = refused)
   ∧ (∀ broadcaster_id user_id after before,
        get_banned_users broadcaster_id user_id after before w = refused))
  ∧ (__has_app_auth (client w) = false →
     let refused := (inl (UnauthorizedException "Require app authentication!"), w) in
     (∀ extension_id transaction_id after first, 1 ≤ first ≤ 100 →
        get_extension_transactions extension_id transaction_id after first w = refused)
     ∧ (∀ manifest_id, 1 ≤ Z.of_nat (String.length manifest_id) ≤ 64 →
          create_entitlement_grants_upload_url manifest_id w = refused)).
Proof.
  split; intros Habsent refused.
  - pose proof (λ R, generate_header_user_absent (client w) R Habsent) as Hgen.
    repeat apply conj; intros.
    + by apply get_extension_analytics_header_error.
    + by apply get_game_analytics_header_error.
    + by apply get_bits_leaderboard_header_error.
    + by apply create_clip_header_error.
    + by apply check_automod_status_header_error.
    + by apply get_banned_events_header_error.
    + by apply get_banned_users_header_error.
  - pose proof (λ R, generate_header_app_absent (client w) R Habsent) as Hgen.
    split; intros.
    + unfold get_extension_transactions. rewrite range_check_passes by done.
      by apply bind_get_header_error.
    + unfold create_entitlement_grants_upload_url.
      replace (_ || _) with false by lia. by apply bind_post_header_error.
Qed.

(** X5. With a user credential that lacks the scope an endpoint requires,
    the endpoint raises MissingScopeException naming that scope and sends
    nothing. *)
Theorem endpoints_missing_scope w :
  __has_user_auth (client w) = true →
  let missing (s : AuthScope) :=
    (inl (MissingScopeException ("Require user auth scope " +:+ name s)), w) in
  (ANALYTICS_READ_EXTENSION ∉ __user_auth_scope (client w) →
   ∀ after extension_id first ended_at started_at report_type,
     dates_in_order ended_at started_at → 1 ≤ first ≤ 100 →
     get_extension_analytics after extension_id first ended_at started_at
       report_type w = missing ANALYTICS_READ_EXTENSION)
  ∧ (ANALYTICS_READ_GAMES ∉ __user_auth_scope (client w) →
     ∀ after first game_id ended_at started_at report_type,
       dates_in_order ended_at started_at → 1 ≤ first ≤ 100 →
       get_game_analytics after first game_id ended_at started_at report_type w
       = missing ANALYTICS_READ_GAMES)
  ∧ (BITS_READ ∉ __user_auth_scope (client w) →
     ∀ count period started_at user_id, 1 ≤ count ≤ 100 →
       get_bits_leaderboard count period started_at user_id w = missing BITS_READ)
  ∧ (CLIPS_EDIT ∉ __user_auth_scope (client w) →
     ∀ broadcaster_id has_delay,
       create_clip broadcaster_id has_delay w = missing CLIPS_EDIT)
  ∧ (MODERATION_READ ∉ __user_auth_scope (client w) →
     (∀ broadcaster_id msg_id msg_text user_id,
        check_automod_status broadcaster_id msg_id msg_text user_id w
        = missing MODERATION_READ)
     ∧ (∀ broadcaster_id user_id after first, 1 ≤ first ≤ 100 →
          get_banned_events ModerationEventType ModerationEventType_UNKNOWN
            broadcaster_id user_id after first w = missing MODERATION_READ)
     ∧ (∀ broadcaster_id user_id after before,
          get_banned_users broadcaster_id user_id after before w
          = missing MODERATION_READ)).
Proof.
  intros Hpresent missing.
  pose proof (λ s, generate_header_user_missing (client w) s Hpresent) as Hgen.
  repeat apply conj; intros.
  - by apply get_extension_analytics_header_error; [| |apply Hgen].
  - by apply get_game_analytics_header_error; [| |apply Hgen].
  - by apply get_bits_leaderboard_header_error; [|apply Hgen].
  - by apply create_clip_header_error, Hgen.
  - repeat apply conj; intros.
    + by apply check_automod_status_header_error, Hgen.
    + by apply get_banned_events_header_error; [|apply Hgen].
    + by apply get_banned_users_header_error, Hgen.
Qed.

End Preflight.

Lemma endpoints_unauthorized_witness :
  __has_user_auth (client app_only) = false
  ∧ get_bits_leaderboard 10 (Period "ALL" "all") None None app_only
    = (inl (UnauthorizedException "require user authentication!"), app_only)
  ∧ get_banned_users "1234" None None None app_only
    = (inl (UnauthorizedException "require user authentication!"), app_only)
  ∧ __has_app_auth (client user_only) = false
  ∧ get_extension_transactions "ext" None None 20 user_only
    = (inl (UnauthorizedException "Require app authentication!"), user_only).
Proof.
  split; [reflexivity|].
  destruct (endpoints_unauthorized sample_events sample_unknown app_only) as [Huser _].
  destruct (Huser eq_refl) as (_ & _ & Hbits & _ & _ & _ & Husers).
  split; [apply Hbits; lia|]. split; [apply Husers|]. split; [reflexivity|].
  destruct (endpoints_unauthorized sample_events sample_unknown user_only) as [_ Happ].
  destruct (Happ eq_refl) as [Htransactions _]. apply Htransactions. lia.
Defined.

Lemma endpoints_missing_scope_witness :
  __has_user_auth (client user_only) = true
  ∧ (CLIPS_EDIT ∉ __user_auth_scope (client user_only))
  ∧ create_clip "1234" false user_only
    = (inl (MissingScopeException "Require user auth scope CLIPS_EDIT"), user_only).
Proof.
  split; [reflexivity|].
  assert (CLIPS_EDIT ∉ __user_auth_scope (client user_only)) as Hmissing
    by apply not_elem_of_nil.
  split; [exact Hmissing|].
  destruct (endpoints_missing_scope sample_events sample_unknown user_only eq_refl)
    as (_ & _ & _ & Hclip & _).
  by apply Hclip.
Defined.

Section Validation.
Context {datetime : Type} {helpers : Helpers datetime}.
Variable ModerationEventType : EnumType.
Variable ModerationEventType_UNKNOWN : pyval datetime.
Implicit Types (w : World datetime).

#[local] Arguments __api_get_request : simpl never.
#[local] Arguments __api_post_request : simpl never.

(** X6. A page size outside 1..100 is refused before the credentials are
    looked at and before any request: the methods that take [first] or
    [count] raise their range Exception and leave the world as it is. *)
Theorem page_size_out_of_range w (n : Z) :
  ¬ 1 ≤ n ≤ 100 →
  let refused (what : string) :=
    (inl (Exception (what +:+ " must be between 1 and 100")), w) in
  (∀ after extension_id ended_at started_at report_type,
     dates_in_order ended_at started_at →
     get_extension_analytics after extension_id n ended_at started_at report_type w
     = refused "first")
  ∧ (∀ after game_id ended_at started_at report_type,
       dates_in_order ended_at started_at →
       get_game_analytics after n game_id ended_at started_at report_type w
       = refused "first")
  ∧ (∀ period started_at user_id,
       get_bits_leaderboard n period started_at user_id w = refused "count")
  ∧ (∀ extension_id transaction_id after,
       get_extension_transactions extension_id transaction_id after n w
       = refused "first")
  ∧ (∀ after before, get_top_games after before n w = refused "first")
  ∧ (∀ broadcaster_id user_id after,
       get_banned_events ModerationEventType ModerationEventType_UNKNOWN
         broadcaster_id user_id after n w = refused "first").
Proof.
  intros Hout refused.
  pose proof (range_check_fails n Hout) as Hcheck.
  assert ((n <? 1) || (100 <? n) = true) as Hcheck' by lia.
  repeat apply conj; intros.
  - unfold get_extension_analytics.
    destruct ended_at as [t1|], started_at as [t2|]; try done;
      unfold bind at 1; simpl.
    + unfold bind at 1, lift, py_gt. simpl. simpl in H. rewrite H. simpl.
      by rewrite Hcheck.
    + by rewrite Hcheck.
  - unfold get_game_analytics.
    destruct ended_at as [t1|], started_at as [t2|]; try done;
      unfold bind at 1; simpl.
    + unfold bind at 1, lift. simpl. simpl in H. rewrite H. simpl. by rewrite Hcheck.
    + by rewrite Hcheck.
  - unfold get_bits_leaderboard. by rewrite Hcheck.
  - unfold get_extension_transactions. by rewrite Hcheck.
  - unfold get_top_games. by rewrite Hcheck'.
  - unfold get_banned_events. by rewrite Hcheck.
Qed.

(** X7. [get_users] and [get_games] refuse a call that gives neither of
    their two lists, and [get_games] refuses more than 100 ids and names in
    total; both before any request. *)
Theorem either_or_arguments w :
  get_users None None w
  = (inl (Exception "please either specify user_ids or logins"), w)
  ∧ get_games None None w
    = (inl (Exception "at least one of either game_ids and names has to be set"), w)
  ∧ ∀ game_ids names,
      100 < len_or_0 game_ids + len_or_0 names →
      get_games game_ids names w
      = (inl (Exception "in total, only 100 game_ids and names can be passed"), w).
Proof.
  split; [done|]. split; [done|]. intros game_ids names Hlen.
  unfold get_games.
  destruct game_ids as [ids|], names as [ns|]; simpl in *; try lia;
    by replace (100 <? _) with true by lia.
Qed.


(** X9. When both dates are given and the start is after the end, the
    analytics methods raise, each with its own message, before any request;
    dates that cannot be compared pass the comparison's exception on. *)
Theorem analytics_dates_order w (e s : datetime) after extension_id game_id first
    report_type :
  (datetime_lt e s = inr true →
   get_extension_analytics after extension_id first (Some e) (Some s) report_type w
   = (inl (Exception "started_at must be before ended_at"), w)
   ∧ get_game_analytics after first game_id (Some e) (Some s) report_type w
     = (inl (Exception "ended_at must be after started_at"), w))
  ∧ (∀ err, datetime_lt e s = inl err →
     get_extension_analytics after extension_id first (Some e) (Some s) report_type w
     = (inl err, w)
     ∧ get_game_analytics after first game_id (Some e) (Some s) report_type w
       = (inl err, w)).
Proof.
  split; [intros Hlt | intros err Hlt];
    unfold get_extension_analytics, get_game_analytics;
    split; unfold bind at 1; simpl; unfold bind at 1, lift, py_gt; simpl;
    by rewrite Hlt.
Qed.

End Validation.

Lemma page_size_out_of_range_witness :
  ¬ 1 ≤ 150 ≤ 100
  ∧ get_bits_leaderboard 150 (Period "ALL" "all") None None user_only
    = (inl (Exception "count must be between 1 and 100"), user_only)
  ∧ get_top_games None None 0 user_only
    = (inl (Exception "first must be between 1 and 100"), user_only).
Proof.
  split; [lia|]. split.
  - destruct (page_size_out_of_range sample_events sample_unknown user_only 150)
      as (_ & _ & Hbits & _); [lia|]. apply Hbits.
  - destruct (page_size_out_of_range sample_events sample_unknown user_only 0)
      as (_ & _ & _ & _ & Htop & _); [lia|]. apply Htop.
Defined.

Lemma either_or_arguments_witness :
  100 < len_or_0 (Some (replicate 60 "id")) + len_or_0 (Some (replicate 41 "name"))
  ∧ get_games (Some (replicate 60 "id")) (Some (replicate 41 "name")) user_only
    = (inl (Exception "in total, only 100 game_ids and names can be passed"), user_only).
Proof.
  split; [by vm_compute|].
  destruct (either_or_arguments user_only) as (_ & _ & Htotal).
  apply Htotal. by vm_compute.
Defined.


Lemma analytics_dates_order_witness :
  datetime_lt 1590000000 1600000000 = inr true
  ∧ get_extension_analytics None None 20 (Some 1590000000) (Some 1600000000) None
      user_only
    = (inl (Exception "started_at must be before ended_at"), user_only)
  ∧ get_game_analytics None 20 None (Some 1590000000) (Some 1600000000) None user_only
    = (inl (Exception "ended_at must be after started_at"), user_only).
Proof.
  split; [reflexivity|].
  destruct (analytics_dates_order user_only 1590000000 1600000000 None None None 20 None)
    as [Hlater _].
  apply Hlater. reflexivity.
Defined.

Section Outcomes.
Context {datetime : Type} {helpers : Helpers datetime}.
Implicit Types (w : World datetime) (r : Response datetime) (body : pyval datetime).

#[local] Arguments __api_get_request : simpl never.
#[local] Arguments __api_post_request : simpl never.

Lemma generate_header_none_succeeds (self : Twitch datetime) (R : list AuthScope) :
  ∃ h, __generate_header self NONE R = inr h.
Proof.
  unfold __generate_header.
  destruct (__has_user_auth self || __has_app_auth self); by eexists.
Qed.

(** X10. [get_top_games] needs no credential: for a page size in range and
    a reply that decodes, it sends exactly one GET, whose parameters hold the
    page size under the key ["first"], and returns the decoded body whatever
    the status code of the reply. *)
Theorem get_top_games_returns_body w (after before : option string) (first : Z)
    r rest body :
  1 ≤ first ≤ 100 → inbox w = r :: rest → json r = Some body →
  ∃ h,
    __generate_header (client w) NONE [] = inr h
    ∧ dict_get (KStr "first") (get_top_games_param (datetime := datetime)
                                 after before first) = Some (VInt first)
    ∧ get_top_games after before first w
      = (inr body,
         {| client := client w;
            sent := (sent w ++
                     [{| method := GET;
                         url := build_url (TWITCH_API_BASE_URL +:+ "games/top")
                                  (get_top_games_param after before first)
                                  (Some true) None;
                         headers := Some h; json_data := None |}])%list;
            inbox := rest |}).
Proof.
  intros Hrange Hinbox Hjson.
  destruct (generate_header_none_succeeds (client w) []) as (h & Hgen).
  exists h. split; [exact Hgen|]. split; [done|].
  unfold get_top_games. replace (_ || _) with false by lia.
  unfold bind. rewrite (api_get_sends _ _ _ h r rest) by done.
  unfold lift, response_json. by rewrite Hjson.
Qed.

(** X11. With a user credential that was granted MODERATION_READ and a
    reply that decodes, [check_automod_status] sends exactly one POST, with
    the user's bearer token and the message as its JSON body, and returns
    the decoded body. *)
Theorem check_automod_status_posts_message w
    (broadcaster_id msg_id msg_text user_id : string) r rest body :
  __has_user_auth (client w) = true →
  MODERATION_READ ∈ __user_auth_scope (client w) →
  inbox w = r :: rest → json r = Some body →
  check_automod_status broadcaster_id msg_id msg_text user_id w
  = (inr body,
     {| client := client w;
        sent := (sent w ++
                 [{| method := POST;
                     url := build_url
                              (TWITCH_API_BASE_URL +:+ "moderation/enforcements/status")
                              (dict_of [(KStr "broadcaster_id", VStr broadcaster_id)])
                              None None;
                     headers := Some [(KStr "Client-ID", VStr (app_id (client w)));
                                      (KStr "Authorization",
                                       bearer (user_credential (client w)))];
                     json_data := Some (VDict [(KStr "data",
                                         VList [VDict [(KStr "msg_id", VStr msg_id);
                                                       (KStr "msg_text", VStr msg_text);
                                                       (KStr "user_id", VStr user_id)]])])
                  |}])%list;
        inbox := rest |}).
Proof.
  intros Hpresent Hscope Hinbox Hjson.
  unfold check_automod_status, bind.
  erewrite api_post_sends; [| |exact Hinbox].
  - unfold lift, response_json. by rewrite Hjson.
  - unfold __generate_header. rewrite Hpresent. simpl.
    by rewrite bool_decide_false by (intros Hn; by apply Hn).
Qed.

End Outcomes.

Lemma get_top_games_returns_body_witness :
  let r : Response Z := {| status_code := 500; text := "";
                           json := Some (VDict [(KStr "error", VStr "oops")]) |} in
  let w : World Z := Sample.fresh [r] in
  1 ≤ 20 ≤ 100 ∧ inbox w = [r]
  ∧ (get_top_games None None 20 w).1 = inr (VDict [(KStr "error", VStr "oops")])
  ∧ url <$> sent (get_top_games None None 20 w).2
    = ["https://api.twitch.tv/helix/games/top?first=20"].
Proof.
  intros r w. split; [lia|]. split; [reflexivity|].
  destruct (get_top_games_returns_body w None None 20 r []
              (VDict [(KStr "error", VStr "oops")])) as (h & _ & _ & Hrun);
    [lia | reflexivity | reflexivity |].
  rewrite Hrun. by split.
Defined.

Lemma check_automod_status_posts_message_witness :
  let w : World Z :=
    {| client := set_user_auth_scope [MODERATION_READ] Sample.user_authenticated;
       sent := []; inbox := [Sample.ok_reply (VDict [])] |} in
  __has_user_auth (client w) = true
  ∧ MODERATION_READ ∈ __user_auth_scope (client w)
  ∧ (check_automod_status "1234" "m1" "hello" "5678" w).1 = inr (VDict [])
  ∧ headers <$> sent (check_automod_status "1234" "m1" "hello" "5678" w).2
    = [Some [(KStr "Client-ID", VStr "my-app");
             (KStr "Authorization", VStr "Bearer utok")]].
Proof.
  intros w. split; [reflexivity|]. split; [by left|].
  rewrite (check_automod_status_posts_message w "1234" "m1" "hello" "5678"
             (Sample.ok_reply (VDict [])) [] (VDict []));
    [by split | reflexivity | by left | reflexivity | reflexivity].
Defined.

Section Credentials.
Context {datetime : Type} {helpers : Helpers datetime}.
Implicit Types (w : World datetime) (r : Response datetime) (scope R : list AuthScope).

#[local] Arguments __generate_header : simpl never.

Lemma generate_header_granted (self : Twitch datetime) R :
  __has_app_auth self = true → (∀ s, s ∈ R → s ∈ __app_auth_scope self) →
  __generate_header self APP R
  = inr [(KStr "Client-ID", VStr (app_id self));
         (KStr "Authorization", bearer (app_credential self))].
Proof.
  intros Hpresent Hall. unfold __generate_header. rewrite Hpresent. simpl.
  rewrite for_in_all_ok; [done|].
  intros s Hs. by apply scope_check_granted, Hall.
Qed.

Lemma generate_header_user_granted (self : Twitch datetime) R :
  __has_user_auth self = true → (∀ s, s ∈ R → s ∈ __user_auth_scope self) →
  __generate_header self USER R
  = inr [(KStr "Client-ID", VStr (app_id self));
         (KStr "Authorization", bearer (user_credential self))].
Proof.
  intros Hpresent Hall. unfold __generate_header. rewrite Hpresent. simpl.
  rewrite for_in_all_ok; [done|].
  intros s Hs. by apply scope_check_granted, Hall.
Qed.

(** X12. When the token endpoint answers 200 with an object that has an
    access_token, [authenticate_app] returns after that one request with the
    app credential holding this token and the requested scopes and marked
    present, the user credential as before; from then on mode App gives the
    bearer header for any required scopes among the requested ones. *)
Theorem authenticate_app_stores_token w scope r rest (body tok : pyval datetime) :
  inbox w = r :: rest → status_code r = 200 → json r = Some body →
  subscript body (KStr "access_token") = inr tok →
  ∃ w',
    authenticate_app scope w = (inr tt, w')
    ∧ app_credential (client w') = {| token := tok; scopes := scope; present := true |}
    ∧ user_credential (client w') = user_credential (client w)
    ∧ sent w' = (sent w ++ [token_request (set_app_auth_scope scope (client w))])%list
    ∧ inbox w' = rest
    ∧ ∀ R, (∀ s, s ∈ R → s ∈ scope) →
        __generate_header (client w') APP R
        = inr [(KStr "Client-ID", VStr (app_id (client w)));
               (KStr "Authorization", VStr ("Bearer " +:+ fstr tok))].
Proof.
  intros Hinbox Hstatus Hjson Htok.
  eexists. split.
  - unfold authenticate_app, __generate_app_token, bind, modify_self, get_self,
      requests_send, try_except, lift, response_json. simpl.
    rewrite Hinbox, Hstatus, Hjson. simpl. rewrite Htok. reflexivity.
  - simpl. repeat split. intros R HR. by rewrite generate_header_granted.
Qed.

(** X13. A 200 reply that is not the expected object makes
    [authenticate_app] raise: an Exception about the JSON body when the body
    does not decode, an Exception about access_token when the object lacks
    it, and the TypeError of the subscript when the body is not an object. *)
Theorem authenticate_app_malformed w scope r rest :
  inbox w = r :: rest → status_code r = 200 →
  (json r = None →
   (authenticate_app scope w).1
   = inl (Exception "Authentication response did not have a valid json body"))
  ∧ (∀ body, json r = Some body →
       subscript body (KStr "access_token") = inl KeyError →
       (authenticate_app scope w).1
       = inl (Exception "Authentication response did not contain access_token"))
  ∧ (∀ body, json r = Some body →
       subscript body (KStr "access_token") = inl TypeError →
       (authenticate_app scope w).1 = inl TypeError).
Proof.
  intros Hinbox Hstatus.
  repeat apply conj; [intros Hjson | intros body Hjson Hsub | intros body Hjson Hsub];
    unfold authenticate_app, __generate_app_token, bind, modify_self, get_self,
      requests_send, try_except, lift, response_json; simpl;
    rewrite Hinbox, Hstatus, Hjson; simpl; by rewrite ?Hsub.
Qed.

(** X14. Whatever the network answers, [authenticate_app] makes exactly one
    request, leaves the user credential alone and leaves the requested
    scopes in the app credential; if it raises, the app token and the
    [__has_app_auth] flag are as before, and if it returns, the flag is set. *)
Theorem authenticate_app_outcome w scope :
  let out := authenticate_app scope w in
  user_credential (client out.2) = user_credential (client w)
  ∧ app_id (client out.2) = app_id (client w)
  ∧ __app_auth_scope (client out.2) = scope
  ∧ sent out.2 = (sent w ++ [token_request (set_app_auth_scope scope (client w))])%list
  ∧ match out.1 with
    | inl _ => __has_app_auth (client out.2) = __has_app_auth (client w)
               ∧ __app_auth_token (client out.2) = __app_auth_token (client w)
    | inr _ => __has_app_auth (client out.2) = true
    end.
Proof.
  unfold authenticate_app, __generate_app_token, bind, modify_self, get_self,
    requests_send, try_except, lift, response_json, raise. simpl.
  destruct (inbox w) as [|r rest]; simpl; [done|].
  case_bool_decide; simpl; [done|].
  destruct (json r) as [body|]; simpl; [|done].
  destruct (subscript body (KStr "access_token")) as [[]|tok]; simpl; done.
Qed.

(** X15. [set_user_authentication] needs no network and cannot fail: it
    stores the token with its scopes, marks the user credential present and
    leaves the app credential alone.  Afterwards mode User gives the bearer
    header of this token for any required scopes among the stored ones, and
    mode None sends this token too, also when an app credential is set. *)
Theorem set_user_authentication_stores w (tok : string) scope :
  let out := set_user_authentication tok scope w in
  out.1 = inr tt
  ∧ user_credential (client out.2)
    = {| token := VStr tok; scopes := scope; present := true |}
  ∧ app_credential (client out.2) = app_credential (client w)
  ∧ sent out.2 = sent w ∧ inbox out.2 = inbox w
  ∧ (∀ R, (∀ s, s ∈ R → s ∈ scope) →
       __generate_header (client out.2) USER R
       = inr [(KStr "Client-ID", VStr (app_id (client w)));
              (KStr "Authorization", VStr ("Bearer " +:+ tok))])
  ∧ (∀ R, __generate_header (client out.2) NONE R
          = inr [(KStr "Client-ID", VStr (app_id (client w)));
                 (KStr "Authorization", VStr ("Bearer " +:+ tok))]).
Proof.
  simpl. repeat split.
  intros R HR. by rewrite generate_header_user_granted.
Qed.

End Credentials.

Lemma authenticate_app_stores_token_witness :
  let w := Sample.fresh [Sample.token_reply "tok1"] in
  inbox w = [Sample.token_reply "tok1"]
  ∧ status_code (Sample.token_reply "tok1") = 200
  ∧ ∃ w', authenticate_app [BITS_READ] w = (inr tt, w')
          ∧ client w' = Sample.app_authenticated
          ∧ __generate_header (client w') APP [BITS_READ]
            = inr [(KStr "Client-ID", VStr "my-app");
                   (KStr "Authorization", VStr "Bearer tok1")].
Proof.
  intros w. split; [reflexivity|]. split; [reflexivity|].
  destruct (authenticate_app_stores_token w [BITS_READ] (Sample.token_reply "tok1") []
              (VDict [(KStr "access_token", VStr "tok1")]) (VStr "tok1"))
    as (w' & Hrun & _ & _ & _ & _ & Hheader); [reflexivity..|].
  exists w'. split; [exact Hrun|]. split.
  - by injection Hrun as <-.
  - by apply Hheader.
Defined.

Lemma authenticate_app_malformed_witness :
  let r : Response Z := {| status_code := 200; text := "[]"; json := Some (VList []) |} in
  inbox (Sample.fresh [r]) = [r] ∧ status_code r = 200
  ∧ (authenticate_app [BITS_READ] (Sample.fresh [r])).1 = inl TypeError
  ∧ (authenticate_app [BITS_READ]
       (Sample.fresh [{| status_code := 200; text := "{}"; json := Some (VDict []) |}])).1
    = inl (Exception "Authentication response did not contain access_token").
Proof.
  intros r. split; [reflexivity|]. split; [reflexivity|]. split.
  - destruct (authenticate_app_malformed (Sample.fresh [r]) [BITS_READ] r [])
      as (_ & _ & Hlist); [reflexivity..|].
    by apply (Hlist (VList [])).
  - destruct (authenticate_app_malformed
                (Sample.fresh [{| status_code := 200; text := "{}";
                                  json := Some (VDict []) |}])
                [BITS_READ]
                {| status_code := 200; text := "{}"; json := Some (VDict []) |} [])
      as (_ & Hkey & _); [reflexivity..|].
    by apply (Hkey (VDict [])).
Defined.

Lemma set_user_authentication_stores_witness :
  (∀ s, s ∈ [BITS_READ] → s ∈ [BITS_READ; CLIPS_EDIT])
  ∧ (set_user_authentication "utok" [BITS_READ; CLIPS_EDIT] app_only).1 = inr tt
  ∧ __generate_header
      (client (set_user_authentication "utok" [BITS_READ; CLIPS_EDIT] app_only).2)
      USER [BITS_READ]
    = inr [(KStr "Client-ID", VStr "my-app"); (KStr "Authorization", VStr "Bearer utok")]
  ∧ __generate_header
      (client (set_user_authentication "utok" [BITS_READ; CLIPS_EDIT] app_only).2)
      NONE []
    = inr [(KStr "Client-ID", VStr "my-app"); (KStr "Authorization", VStr "Bearer utok")].
Proof.
  assert (∀ s, s ∈ [BITS_READ] → s ∈ [BITS_READ; CLIPS_EDIT]) as Hsub.
  { intros s Hs. apply list_elem_of_singleton in Hs as ->. by left. }
  destruct (set_user_authentication_stores app_only "utok" [BITS_READ; CLIPS_EDIT])
    as (Hok & _ & _ & _ & _ & Huser & Hnone).
  split; [exact Hsub|]. split; [exact Hok|]. split.
  - by apply Huser.
  - apply Hnone.
Defined.

Section Replies.
Context {datetime : Type} {helpers : Helpers datetime}.
Implicit Types (w : World datetime) (r : Response datetime).

#[local] Arguments __api_get_request : simpl never.

(** X16. When the reply to [get_games] does not decode as JSON, the call
    raises ValueError; its one request has gone out by then and the reply
    is used up. *)
Theorem get_games_undecodable_reply w (game_ids names : option (list string)) r rest :
  ¬ (game_ids = None ∧ names = None) →
  len_or_0 game_ids + len_or_0 names ≤ 100 →
  inbox w = r :: rest → json r = None →
  ∃ req,
    get_games game_ids names w
    = (inl ValueError,
       {| client := client w; sent := (sent w ++ [req])%list; inbox := rest |}).
Proof.
  intros Hgiven Hlen Hinbox Hjson.
  destruct (generate_header_none_succeeds (client w) []) as (h & Hgen).
  eexists. unfold get_games.
  replace (is_None game_ids && is_None names) with false
    by (destruct game_ids, names; try done; by destruct Hgiven).
  replace (100 <? _) with false by lia.
  unfold bind. rewrite (api_get_sends _ _ _ h r rest) by done.
  unfold lift, response_json. by rewrite Hjson.
Qed.

End Replies.

Lemma get_games_undecodable_reply_witness :
  let r : Response Z := {| status_code := 502; text := "<html>Bad Gateway</html>";
                           json := None |} in
  ¬ (Some ["493057"] = None ∧ @None (list string) = None)
  ∧ len_or_0 (Some ["493057"]) + len_or_0 None ≤ 100
  ∧ (get_games (Some ["493057"]) None (Sample.fresh [r])).1 = inl ValueError
  ∧ length (sent (get_games (Some ["493057"]) None (Sample.fresh [r])).2) = 1%nat.
Proof.
  intros r.
  assert (¬ (Some ["493057"] = None ∧ @None (list string) = None)) as Hgiven
    by (by intros [? _]).
  split; [exact Hgiven|]. split; [simpl; lia|].
  destruct (get_games_undecodable_reply (Sample.fresh [r]) (Some ["493057"]) None r [])
    as (req & Hrun); [exact Hgiven | simpl; lia | reflexivity | reflexivity |].
  rewrite Hrun. by split.
Defined.
